(** * BTCLab: the dip-buying bot ([btclab/buydips.py]) and its notifier

    A shallow embedding of [bought_less_than_24h_ago], of the body of the
    polling loop of [main], of the [@retry] wrapper around [main] and of
    [NotificationsHelper.send_msg], with the properties the specification
    states about them.

    Python values are modelled as the interpreter has them: a [float] is an
    IEEE binary64 number (Rocq's primitive floats), an [int] is an unbounded
    integer, a [dict] keyed by symbol is a finite map, an exception is a
    value of [exn] carried by [Raise].  The exchange, the clock, the store
    on disk and Telegram are the world: what the program does to it is
    recorded as a trace of events, and what it answers is given by an
    environment that the properties quantify over. *)

From Stdlib Require Import ZArith Lia String Ascii List Bool.
From Stdlib Require Import Numbers.DecimalString.
From Stdlib Require Import Floats.PrimFloat Floats.SpecFloat Floats.FloatOps.
From stdpp Require Import base option gmap strings.

Local Open Scope string_scope.
Local Open Scope Z_scope.

(** ** Exceptions and results *)

(** The exceptions the modelled code can meet.  [NetworkError] stands for
    ccxt's class of that name and its subclasses, [RequestTimeout] being
    the one the source names; [ExchangeError] for ccxt's other errors;
    [RequestException] for what [requests.get] raises, by the name of the
    subclass; [OSError] for what the operating system refuses; [Exit] is
    [typer.Exit]. *)
Inductive exn : Type :=
  | ZeroDivisionError
  | OverflowError
  | ValueError
  | KeyError
  | InsufficientFunds
  | NetworkError
  | RequestTimeout
  | ExchangeError (name : string)
  | RequestException (name : string)
  | OSError
  | Exit (code : Z).

Inductive result (A : Type) : Type :=
  | Ok (a : A)
  | Raise (e : exn).
Arguments Ok {A} a.
Arguments Raise {A} e.

Definition rbind {A B} (r : result A) (k : A -> result B) : result B :=
  match r with
  | Ok a => k a
  | Raise e => Raise e
  end.

(** ** Numbers *)

(** A Python number as the bot stores it: an [int] or a [float]. *)
Inductive pynum : Type :=
  | PyInt (z : Z)
  | PyFloat (f : float).

(** Nearest integer to [n / d] for [0 < d], ties to even. *)
Definition round_half_even_div (n d : Z) : Z :=
  let q := n / d in
  match (2 * (n mod d)) ?= d with
  | Lt => q
  | Gt => q + 1
  | Eq => if Z.even q then q else q + 1
  end.

(** The binary64 number [m * 2^e] for [0 <= m <= 2^53] and an exponent in
    range, where it is exact. *)
Definition float_of_mantissa (neg : bool) (m e : Z) : float :=
  match m with
  | Zpos p => SF2Prim (S754_finite neg p e)
  | _ => if neg then neg_zero else zero
  end.

(** [a / b] on two Python ints ([long_true_divide]): the binary64 number
    nearest to the exact quotient, ties to even. *)
Definition int_truediv (a b : Z) : result float :=
  if b =? 0 then Raise ZeroDivisionError
  else
    let neg := xorb (a <? 0) (b <? 0) in
    let n := Z.abs a in
    let d := Z.abs b in
    if n =? 0 then Ok (if b <? 0 then neg_zero else zero)
    else
      let l := Z.log2 n - Z.log2 d in
      (* floor (log2 (n / d)) is l or l - 1 *)
      let lg := if (if 0 <=? l then d * 2 ^ l <=? n else d <=? n * 2 ^ (- l))
                then l else l - 1 in
      let e := Z.max (-1074) (lg - 52) in
      let m := if 0 <=? e then round_half_even_div n (d * 2 ^ e)
               else round_half_even_div (n * 2 ^ (- e)) d in
      if (971 <? e) || ((e =? 971) && (2 ^ 53 <=? m)) then Raise OverflowError
      else Ok (float_of_mantissa neg m e).

(** [float(z)]. *)
Definition float_of_int (z : Z) : result float := int_truediv z 1.

(** [x / y] on floats: Python raises where IEEE 754 returns an infinity or
    a NaN. *)
Definition float_truediv (x y : float) : result float :=
  if (y =? 0)%float then Raise ZeroDivisionError else Ok (x / y)%float.

(** [x / k] for an int [k], as in [timestamp /= 1000]. *)
Definition pynum_div_int (x : pynum) (k : Z) : result float :=
  match x with
  | PyInt z => int_truediv z k
  | PyFloat f => rbind (float_of_int k) (float_truediv f)
  end.

(** [x * k] for an int [k], as in [retry_after * 60]. *)
Definition pynum_mul_int (x : pynum) (k : Z) : result pynum :=
  match x with
  | PyInt z => Ok (PyInt (z * k))
  | PyFloat f => rbind (float_of_int k) (fun fk => Ok (PyFloat (f * fk)%float))
  end.

(** ** [str] of a number *)

Fixpoint str_contains (c : ascii) (s : string) : bool :=
  match s with
  | EmptyString => false
  | String c' s' => Ascii.eqb c c' || str_contains c s'
  end.

Definition str_of_Z (z : Z) : string := NilZero.string_of_int (Z.to_int z).

Definition pow10 (k : Z) : Z := 10 ^ k.

Definition nb_digits (z : Z) : Z :=
  Z.of_nat (Decimal.nb_digits (N.to_uint (Z.to_N z))).

(** The exact value of a finite positive binary64 number [m * 2^e] and of
    the ends of its rounding interval, as numerators over one denominator:
    [(lo, v, hi, den)]. *)
Definition rounding_interval (m : positive) (e : Z) : Z * Z * Z * Z :=
  let up := 2 ^ Z.max e 0 in
  let den := 4 * 2 ^ Z.max (- e) 0 in
  let v := 4 * Zpos m * up in
  let below := if (Zpos m =? 2 ^ 52) && (-1074 <? e) then up else 2 * up in
  (v - below, v, v + 2 * up, den).

(** The position of the decimal point of [v / den]: the [p] with
    [10^(p-1) <= v / den < 10^p]. *)
Definition decimal_point (v den : Z) : Z :=
  if den <=? v then nb_digits (v / den)
  else 1 - nb_digits (den / v).

Fixpoint strip_zeros (fuel : nat) (d : Z) : Z :=
  match fuel with
  | O => d
  | S k => if (d mod 10 =? 0) && (0 <? d) then strip_zeros k (d / 10) else d
  end.

(** The digits [d] and decimal point [p] of the shortest decimal
    [0.d * 10^p] that reads back as [m * 2^e], the one nearest to it when
    there are several ([_Py_dg_dtoa] in mode 0). *)
Fixpoint shortest_from (fuel : nat) (n : Z) (m : positive) (e : Z) : Z * Z :=
  let '(lo, v, hi, den) := rounding_interval m e in
  let p := decimal_point v den in
  let k := p - n in
  (* candidates f * 10^k <= v / den < (f + 1) * 10^k *)
  let num := if 0 <=? k then v else v * pow10 (- k) in
  let dn := if 0 <=? k then den * pow10 k else den in
  let f := num / dn in
  let r := num mod dn in
  let closed := Z.even (Zpos m) in
  let scale x := if 0 <=? k then x else x * pow10 (- k) in
  let in_lo := if closed then scale lo <=? f * dn else scale lo <? f * dn in
  let in_hi := if closed then (f + 1) * dn <=? scale hi
               else (f + 1) * dn <? scale hi in
  let pick_lo := (f, p) in
  let pick_hi := (f + 1, p) in
  let best :=
    match in_lo, in_hi with
    | true, true =>
        match (2 * r) ?= dn with
        | Lt => Some pick_lo
        | Gt => Some pick_hi
        | Eq => Some (if Z.even f then pick_lo else pick_hi)
        end
    | true, false => Some pick_lo
    | false, true => Some pick_hi
    | false, false => None
    end in
  match best with
  | Some (d, p) =>
      let p' := if nb_digits d =? n then p else p + 1 in
      (strip_zeros 20 d, p')
  | None =>
      match fuel with
      | O => (f, p)
      | S fuel' => shortest_from fuel' (n + 1) m e
      end
  end.

Definition shortest_digits (m : positive) (e : Z) : Z * Z :=
  shortest_from 17 1 m e.

Fixpoint zeros (n : nat) : string :=
  match n with
  | O => ""
  | S k => String "0" (zeros k)
  end.

Definition str_take (n : nat) (s : string) : string := substring 0 n s.
Definition str_drop (n : nat) (s : string) : string :=
  substring n (String.length s - n)%nat s.

(** [repr] of a finite positive float from its shortest digits
    ([format_float_short] with format code ['r'] and the flag that adds
    [.0]). *)
Definition format_repr (d p : Z) : string :=
  let ds := str_of_Z d in
  let nd := Z.of_nat (String.length ds) in
  if (p <=? -4) || (16 <? p) then
    let ex := p - 1 in
    let mant := if nd =? 1 then ds
                else str_take 1 ds ++ "." ++ str_drop 1 ds in
    let exs := str_of_Z (Z.abs ex) in
    mant ++ "e" ++ (if ex <? 0 then "-" else "+")
         ++ (if Z.abs ex <? 10 then "0" else "") ++ exs
  else if p <=? 0 then "0." ++ zeros (Z.to_nat (- p)) ++ ds
  else if nd <=? p then ds ++ zeros (Z.to_nat (p - nd)) ++ ".0"
  else str_take (Z.to_nat p) ds ++ "." ++ str_drop (Z.to_nat p) ds.

Definition float_repr (f : float) : string :=
  match Prim2SF f with
  | S754_nan => "nan"
  | S754_infinity s => if s then "-inf" else "inf"
  | S754_zero s => if s then "-0.0" else "0.0"
  | S754_finite s m e =>
      let '(d, p) := shortest_digits m e in
      (if s then "-" else "") ++ format_repr d p
  end.

(** [str(x)]. *)
Definition py_str (x : pynum) : string :=
  match x with
  | PyInt z => str_of_Z z
  | PyFloat f => float_repr f
  end.

(** ** Naive local datetimes *)

(** A [datetime] without time zone, as [datetime.now()] and
    [datetime.fromtimestamp] return it: microseconds on the local wall
    clock, counted from 1970-01-01T00:00:00 of that clock. *)
Definition datetime : Type := Z.

Definition us_per_second : Z := 1000000.
Definition us_per_day : Z := 86400 * us_per_second.

(** Seconds of 0001-01-01T00:00:00 and of 9999-12-31T23:59:59. *)
Definition min_second : Z := -62135596800.
Definition max_second : Z := 253402300799.

(** What the host knows about time: the instant the system clock shows (in
    microseconds since the epoch) and the offset of local time from UTC, in
    seconds, at a given instant. *)
Record timeenv : Type := {
  te_now : Z;
  te_utcoffset : Z -> Z
}.

Definition localtime (te : timeenv) (sec us : Z) : datetime :=
  (sec + te_utcoffset te sec) * us_per_second + us.

(** [datetime.now()]; the system clock is taken to show a year the type
    can hold. *)
Definition datetime_now (te : timeenv) : datetime :=
  localtime te (te_now te / us_per_second) (te_now te mod us_per_second).

(** The signed integer nearest to a finite float, ties to even. *)
Definition float_round_half_even (f : float) : Z :=
  match Prim2SF f with
  | S754_finite s m e =>
      let r := if 0 <=? e then Zpos m * 2 ^ e
               else round_half_even_div (Zpos m) (2 ^ (- e)) in
      if s then - r else r
  | _ => 0
  end.

(** [modf]: the integral part as an integer and the fractional part as a
    float, both with the sign of the argument. *)
Definition float_modf (s : bool) (m : positive) (e : Z) : Z * float :=
  if 0 <=? e then ((if s then - (Zpos m * 2 ^ e) else Zpos m * 2 ^ e),
                   if s then neg_zero else zero)
  else
    let ip := Zpos m / 2 ^ (- e) in
    ((if s then - ip else ip), float_of_mantissa s (Zpos m mod 2 ^ (- e)) e).

(** Seconds and microseconds of a timestamp ([_PyTime_ObjectToTimeval]
    rounding half to even): the fraction is scaled in float arithmetic and
    then rounded. *)
Definition timestamp_to_timeval (t : pynum) : result (Z * Z) :=
  let in_time_t (sec : Z) := (- 2 ^ 63 <=? sec) && (sec <? 2 ^ 63) in
  match t with
  | PyInt z => if in_time_t z then Ok (z, 0) else Raise OverflowError
  | PyFloat f =>
      match Prim2SF f with
      | S754_nan => Raise ValueError
      | S754_infinity _ => Raise OverflowError
      | S754_zero _ => Ok (0, 0)
      | S754_finite s m e =>
          let '(ip, frac) := float_modf s m e in
          let us := float_round_half_even (frac * 1000000)%float in
          let '(sec, us) :=
            if us_per_second <=? us then (ip + 1, us - us_per_second)
            else if us <? 0 then (ip - 1, us + us_per_second)
            else (ip, us) in
          if in_time_t sec then Ok (sec, us) else Raise OverflowError
      end
  end.

(** [datetime.fromtimestamp(t)]: local time.  The year must be within
    1..9999, at the instant itself and at the instants the constructor
    probes to find a repeated hour (one day earlier, and the instant
    shifted by the change of offset over that day when the offset dropped);
    the model raises [ValueError] for every refused year. *)
Definition fromtimestamp (te : timeenv) (t : pynum) : result datetime :=
  rbind (timestamp_to_timeval t) (fun '(sec, us) =>
    let off := te_utcoffset te in
    let year_ok (u : Z) :=
      (min_second <=? u + off u) && (u + off u <=? max_second) in
    let transition := off sec - off (sec - 86400) in
    if year_ok sec && year_ok (sec - 86400)
       && (if transition <? 0 then year_ok (sec + transition) else true)
    then Ok (localtime te sec us)
    else Raise ValueError).

(** [(a - b).days]: a [timedelta] is normalised so that its seconds and
    microseconds are not negative, so its days are a floor. *)
Definition timedelta_days (diff : Z) : Z := diff / us_per_day.

(** ** Purchase records and tickers *)

(** The order [crypto.place_order] returns and [db] stores; the bot reads
    its keys ['price'], ['amount'] and ['timestamp']. *)
Record Order : Type := {
  o_price : float;
  o_amount : float;
  o_timestamp : pynum
}.

(** One entry of [fetch_tickers]: the keys ['last'] and ['percentage']. *)
Record Ticker : Type := {
  t_last : float;
  t_percentage : float
}.

(** [symbol in orders]. *)
Definition py_in (symbol : string) (orders : gmap string Order) : bool :=
  bool_decide (is_Some (orders !! symbol)).

(** ** [bought_less_than_24h_ago] *)

(** Lines 35-36: [if '.' not in str(timestamp): timestamp /= 1000]. *)
Definition normalise_timestamp (timestamp : pynum) : result pynum :=
  if negb (str_contains "." (py_str timestamp))
  then rbind (pynum_div_int timestamp 1000) (fun f => Ok (PyFloat f))
  else Ok timestamp.

Definition bought_less_than_24h_ago (te : timeenv) (symbol : string)
    (orders : gmap string Order) : result bool :=
  match orders !! symbol with
  | Some order =>
      let now := datetime_now te in
      let timestamp := o_timestamp order in
      rbind (normalise_timestamp timestamp) (fun timestamp =>
      rbind (fromtimestamp te timestamp) (fun bought_on =>
      let diff := now - bought_on in
      Ok (timedelta_days diff <=? 1)))
  | None => Ok false
  end.

(** ** The outside world *)

Inductive level : Type := DEBUG | INFO | WARNING | ERROR.

(** The texts the bot logs and sends, each constructor standing for one
    f-string of the source with the values it interpolates. *)
Inductive message : Type :=
  | MsgStartSession (dry_run : bool)
  | MsgCredentialsHint
  | MsgUnsupported (symbols : list string)
  | MsgTracking (symbols : list string)
  | MsgMinDrop (min_drop : float)
  | MsgAdditionalDrop (min_additional_drop : float)
  | MsgVerboseHint
  | MsgPreviouslyBought
  | MsgHolding (symbol : string) (amount price : float)
  | MsgInsufficientFunds (retry_after : pynum)
  | MsgBuyAgain (symbol : string) (last discount_pct : float)
  | MsgBuyFirstTime (symbol : string) (last percentage : float)
  | MsgNotEnoughDiscount (symbol : string) (last percentage : float)
  | MsgCheckingAgain (freq : float)
  | MsgRetrying (e : exn) (delay : Z).

(** The URL [send_msg] builds:
    [https://api.telegram.org/bot{token}/sendMessage?chat_id={chat_id}&text={msg}]. *)
Record telegram_url : Type := {
  url_token : option string;
  url_chat_id : string;
  url_text : message
}.

(** What the program does to the world, in order. *)
Inductive event : Type :=
  | EvLog (lvl : level) (m : message)
  | EvPrompt (text : string)
  | EvGetUnsupportedSymbols (symbols : list string)
  | EvGetOrders
  | EvFetchTickers (symbols : list string)
  | EvPlaceOrder (symbol : string) (price amount_in_usd : float)
                 (dry_run : bool)
  | EvSave (orders : gmap string Order)
  | EvRequestsGet (url : telegram_url)
  | EvSleep (seconds : pynum).

(** The outcome of [requests.get]: a response with its status code, or an
    exception of the [requests] library (a subclass of
    [RequestException], such as [ConnectionError] or [Timeout]). *)
Inductive http_outcome : Type :=
  | Response (status : Z)
  | RequestFailure (name : string).

(** The answers of the world.  Each call is answered by position: the
    number of events that happened before it. *)
Record env : Type := {
  ex_clock : nat -> Z;
  ex_utcoffset : Z -> Z;
  ex_api_key : option string;
  ex_api_secret : option string;
  ex_get_unsupported_symbols : nat -> list string -> result (list string);
  ex_fetch_tickers : nat -> list string -> result (list (string * Ticker));
  ex_place_order : nat -> string -> float -> float -> bool -> result Order;
  ex_requests_get : nat -> telegram_url -> http_outcome
}.

(** The state that outlives a call of [main]: the persisted orders, what
    has happened so far, and the host the program runs on, which is its
    monotonic clock (the nanoseconds it reads, by position). *)
Record world : Type := {
  w_db : gmap string Order;
  w_trace : list event;
  w_monotonic : nat -> Z
}.

(** ** A monad of state and exceptions *)

Definition M (A : Type) : Type := world -> result A * world.

Definition ret {A} (a : A) : M A := fun w => (Ok a, w).

Definition raise {A} (e : exn) : M A := fun w => (Raise e, w).

Definition bind {A B} (m : M A) (k : A -> M B) : M B :=
  fun w =>
    match m w with
    | (Ok a, w') => k a w'
    | (Raise e, w') => (Raise e, w')
    end.

Notation "'let*' x ':=' m 'in' k" := (bind m (fun x => k))
  (at level 10, x name, m at level 100, k at level 200).

Definition lift {A} (r : result A) : M A := fun w => (r, w).

Definition emit (ev : event) : M unit :=
  fun w => (Ok tt, {| w_db := w_db w; w_trace := w_trace w ++ [ev];
                      w_monotonic := w_monotonic w |}).

(** The number of events so far, by which the world answers. *)
Definition position : M nat := fun w => (Ok (length (w_trace w)), w).

Definition log (lvl : level) (m : message) : M unit := emit (EvLog lvl m).

(** The monotonic clock as [time.sleep] reads it, in nanoseconds.  The
    clock counts from the start of the host: a reading lies between 0 and
    2^62 ns (146 years), and one outside is taken to the nearer bound. *)
Definition monotonic (w : world) : Z :=
  Z.max 0 (Z.min (w_monotonic w (length (w_trace w))) (2 ^ 62)).

(** A float rounded to an integer away from zero, the rounding of a
    timeout ([_PyTime_ROUND_TIMEOUT]: [ceil] of a positive, [floor] of a
    negative number). *)
Definition round_timeout (d : float) : Z :=
  match Prim2SF d with
  | S754_finite s m e =>
      let magnitude :=
        if 0 <=? e then Z.pos m * 2 ^ e
        else (Z.pos m + 2 ^ (- e) - 1) / 2 ^ (- e) in
      if s then - magnitude else magnitude
  | _ => 0
  end.

(** The length of a [time.sleep(seconds)] in nanoseconds: a NaN is
    refused with [ValueError], a length beyond the C time type (64 bits,
    signed) with [OverflowError], a negative one with [ValueError].  A
    float is scaled in floating point, rounded, compared with the bounds
    as a float and then cast: 2^63 passes the comparison and is cast to
    the least, negative value. *)
Definition sleep_timeout (seconds : pynum) : result Z :=
  match seconds with
  | PyInt z =>
      let ns := z * 10 ^ 9 in
      if negb ((- 2 ^ 63 <=? ns) && (ns <? 2 ^ 63))
      then Raise OverflowError
      else if ns <? 0 then Raise ValueError else Ok ns
  | PyFloat f =>
      if is_nan f then Raise ValueError
      else
        let d := (f * 1000000000)%float in
        if is_infinity d then Raise OverflowError
        else
          let ns := round_timeout d in
          if negb ((- 2 ^ 63 <=? ns) && (ns <=? 2 ^ 63))
          then Raise OverflowError
          else if (ns <? 0) || (ns =? 2 ^ 63) then Raise ValueError
          else Ok ns
  end.

(** [time.sleep(seconds)] sleeps until a deadline, the reading [now] of
    the monotonic clock plus the length, both in nanoseconds.  A deadline
    beyond the C time type wraps around to a negative one, which the
    operating system refuses: an [OSError].  So the longest sleep a host
    accepts is 2^63 - 1 ns less the time since it started. *)
Definition sleep_check (now : Z) (seconds : pynum) : result unit :=
  rbind (sleep_timeout seconds) (fun ns =>
    if now + ns <? 2 ^ 63 then Ok tt else Raise OSError).

Definition sleep (seconds : pynum) : M unit :=
  fun w =>
    (let* _ := lift (sleep_check (monotonic w) seconds) in
     emit (EvSleep seconds)) w.

(** Modelled from the spec: [db.get_orders] and [db.save] of the missing
    module [db] are the Order Store's [load] (the persisted mapping, empty
    when there is no prior state) and [save] (an overwrite of the entire
    persisted state). *)
Definition get_orders : M (gmap string Order) :=
  let* _ := emit EvGetOrders in fun w => (Ok (w_db w), w).

Definition save (orders : gmap string Order) : M unit :=
  fun w => (Ok tt, {| w_db := orders;
                      w_trace := w_trace w ++ [EvSave orders];
                      w_monotonic := w_monotonic w |}).

(** Modelled from the spec: [crypto.get_unsupported_symbols],
    [binance.fetch_tickers] and [crypto.place_order] are the Price Feed's
    [is_supported], [fetch_tickers] and [place_order]; what they return or
    raise is the world's answer. *)
Definition get_unsupported_symbols (ex : env) (symbols : list string)
    : M (list string) :=
  let* n := position in
  let* _ := emit (EvGetUnsupportedSymbols symbols) in
  lift (ex_get_unsupported_symbols ex n symbols).

Definition fetch_tickers (ex : env) (symbols : list string)
    : M (list (string * Ticker)) :=
  let* n := position in
  let* _ := emit (EvFetchTickers symbols) in
  lift (ex_fetch_tickers ex n symbols).

Definition place_order (ex : env) (symbol : string) (price : float)
    (amount_in_usd : float) (dry_run : bool) : M Order :=
  let* n := position in
  let* _ := emit (EvPlaceOrder symbol price amount_in_usd dry_run) in
  lift (ex_place_order ex n symbol price amount_in_usd dry_run).

(** ** [NotificationsHelper.send_msg] *)

Definition requests_get (ex : env) (url : telegram_url) : M Z :=
  let* n := position in
  let* _ := emit (EvRequestsGet url) in
  match ex_requests_get ex n url with
  | Response status => ret status
  | RequestFailure name => raise (RequestException name)
  end.

(** [send_msg] builds the URL and calls [requests.get]; the response is
    dropped.  [main] calls it as [utils.send_msg]. *)
Definition send_msg (ex : env) (telegram_bot_token : option string)
    (telegram_chat_id : string) (msg : message) : M unit :=
  let url := {| url_token := telegram_bot_token;
                url_chat_id := telegram_chat_id;
                url_text := msg |} in
  let* _ := requests_get ex url in
  ret tt.

(** ** [main] *)

(** The arguments of [main] and the entries of [config] it reads. *)
Record Config : Type := {
  symbols : list string;
  amount_usd : float;
  freq : float;
  min_drop : float;
  min_additional_drop : float;
  quote_currency : string;
  dry_run : bool;
  reset_cache : bool;
  tickers : list string;          (* config['General']['tickers'] *)
  retry_after : pynum;            (* config['General']['retry_after'] *)
  bot_token : option string;      (* os.environ.get('TELEGRAM_BOT_TOKEN') *)
  chat_id : string                (* config['IM']['telegram_chat_id'] *)
}.

(** The configuration with another [--freq]. *)
Definition with_freq (f : float) (cfg : Config) : Config :=
  {| symbols := symbols cfg;
     amount_usd := amount_usd cfg;
     freq := f;
     min_drop := min_drop cfg;
     min_additional_drop := min_additional_drop cfg;
     quote_currency := quote_currency cfg;
     dry_run := dry_run cfg;
     reset_cache := reset_cache cfg;
     tickers := tickers cfg;
     retry_after := retry_after cfg;
     bot_token := bot_token cfg;
     chat_id := chat_id cfg |}.

(** Lines 133-140: the two flags, and [discount_pct] where it is bound. *)
Record decision : Type := {
  buy_first_time : bool;
  buy_again : bool;
  discount_pct : option float
}.

Definition triggers (d : decision) : bool :=
  buy_first_time d || buy_again d.

Definition decide (te : timeenv) (cfg : Config) (orders : gmap string Order)
    (symbol : string) (ticker : Ticker) : result decision :=
  rbind (if py_in symbol orders then bought_less_than_24h_ago te symbol orders
         else Ok false) (fun recent =>
  if recent then
    match orders !! symbol with
    | Some order =>
        rbind (float_truediv (t_last ticker) (o_price order)) (fun q =>
        let pct := ((q - 1) * 100)%float in
        Ok {| buy_first_time := false;
              buy_again := (pct <? - min_additional_drop cfg)%float;
              discount_pct := Some pct |})
    | None => Raise KeyError
    end
  else
    Ok {| buy_first_time := (t_percentage ticker <? - min_drop cfg)%float;
          buy_again := false;
          discount_pct := None |}).

(** Lines 132-166: the body of [for symbol, ticker in tickers.items()],
    returning the mapping [orders] as the iteration leaves it. *)
Definition loop_body (cfg : Config) (ex : env) (orders : gmap string Order)
    (item : string * Ticker) : M (gmap string Order) :=
  let symbol := fst item in
  let ticker := snd item in
  let* n := position in
  let te := {| te_now := ex_clock ex n; te_utcoffset := ex_utcoffset ex |} in
  let* d := lift (decide te cfg orders symbol ticker) in
  if triggers d then
    fun w =>
      match place_order ex symbol (t_last ticker) (amount_usd cfg)
                        (dry_run cfg) w with
      | (Raise InsufficientFunds, w') =>
          (let msg := MsgInsufficientFunds (retry_after cfg) in
           let* _ := log WARNING msg in
           let* _ := send_msg ex (bot_token cfg) (chat_id cfg) msg in
           let* seconds := lift (pynum_mul_int (retry_after cfg) 60) in
           let* _ := sleep seconds in
           ret orders) w'
      | (Raise e, w') => (Raise e, w')
      | (Ok order, w') =>
          (let orders' := <[symbol := order]> orders in
           let* _ := save orders' in
           let msg :=
             match buy_again d, discount_pct d with
             | true, Some pct => MsgBuyAgain symbol (t_last ticker) pct
             | _, _ => MsgBuyFirstTime symbol (t_last ticker)
                                       (t_percentage ticker)
             end in
           let* _ := log INFO msg in
           let* _ := send_msg ex (bot_token cfg) (chat_id cfg) msg in
           ret orders') w'
      end
  else
    let* _ := log DEBUG (MsgNotEnoughDiscount symbol (t_last ticker)
                                              (t_percentage ticker)) in
    ret orders.

Fixpoint for_each_ticker (cfg : Config) (ex : env)
    (items : list (string * Ticker)) (orders : gmap string Order)
    : M (gmap string Order) :=
  match items with
  | [] => ret orders
  | item :: rest =>
      let* orders' := loop_body cfg ex orders item in
      for_each_ticker cfg ex rest orders'
  end.

(** Lines 129-169: [while True], run for at most [cycles] rounds; the
    result is the mapping [orders] when the rounds are used up. *)
Fixpoint polling_loop (cycles : nat) (cfg : Config) (ex : env)
    (syms : list string) (orders : gmap string Order)
    : M (gmap string Order) :=
  match cycles with
  | O => ret orders
  | S cycles' =>
      let* items := fetch_tickers ex syms in
      let* orders' := for_each_ticker cfg ex items orders in
      let* _ := log INFO (MsgCheckingAgain (freq cfg)) in
      let* _ := sleep (PyFloat (freq cfg * 60)%float) in
      polling_loop cycles' cfg ex syms orders'
  end.

(** [s.upper()], on ASCII letters. *)
Definition upper_ascii (c : ascii) : ascii :=
  let n := nat_of_ascii c in
  if (97 <=? n)%nat && (n <=? 122)%nat then ascii_of_nat (n - 32) else c.

Fixpoint upper (s : string) : string :=
  match s with
  | EmptyString => EmptyString
  | String c s' => String (upper_ascii c) (upper s')
  end.

(** Lines 76-80. *)
Definition tracked_symbols (cfg : Config) : list string :=
  let syms := match symbols cfg with [] => tickers cfg | l => l end in
  let syms := map upper syms in
  map (fun s => if str_contains "/" s then s
                else s ++ "/" ++ quote_currency cfg) syms.

Fixpoint log_holdings (items : list (string * Order)) : M unit :=
  match items with
  | [] => ret tt
  | (key, value) :: rest =>
      let* _ := log INFO (MsgHolding key (o_amount value) (o_price value)) in
      log_holdings rest
  end.

(** Lines 70-127: everything [main] does before the loop.  Every call of
    the logger is an event, whatever level the logger shows ([verbose]
    only changes that level); the blank lines written to the console are
    left out.  The previous purchases are listed in the order of
    [map_to_list]. *)
Definition startup (cfg : Config) (ex : env)
    : M (list string * gmap string Order) :=
  let syms := tracked_symbols cfg in
  let* _ := log INFO (MsgStartSession (dry_run cfg)) in
  let* _ := match ex_api_key ex, ex_api_secret ex with
            | Some _, Some _ => ret tt
            | _, _ => log WARNING MsgCredentialsHint
            end in
  let* _ := match ex_api_key ex with
            | None => emit (EvPrompt "Enter your Binance API key")
            | Some _ => ret tt
            end in
  let* _ := match ex_api_secret ex with
            | None => emit (EvPrompt "Enter your Binance API secret")
            | Some _ => ret tt
            end in
  let* non_supported_symbols := get_unsupported_symbols ex syms in
  match non_supported_symbols with
  | _ :: _ =>
      let* _ := log ERROR (MsgUnsupported non_supported_symbols) in
      raise (Exit (-1))
  | [] =>
      let* orders := if reset_cache cfg then ret ∅ else get_orders in
      let* _ := log INFO (MsgTracking syms) in
      let* _ := log INFO (MsgMinDrop (min_drop cfg)) in
      let* _ := log INFO (MsgAdditionalDrop (min_additional_drop cfg)) in
      let* _ := log INFO MsgVerboseHint in
      let* _ := match map_to_list orders with
                | [] => ret tt
                | items =>
                    let* _ := log INFO MsgPreviouslyBought in
                    log_holdings items
                end in
      ret (syms, orders)
  end.

(** The undecorated [main], its loop cut after [cycles] rounds. *)
Definition main_once (cycles : nat) (cfg : Config) (ex : env)
    : M (gmap string Order) :=
  let* so := startup cfg ex in
  polling_loop cycles cfg ex (fst so) (snd so).

(** ** The [@retry] decorator *)

(** [except (RequestTimeout, NetworkError)]. *)
Definition caught (e : exn) : bool :=
  match e with
  | RequestTimeout | NetworkError => true
  | _ => false
  end.

(** [retry.api.__retry_internal] with [jitter=0] and no [max_delay]:
    [None] when there is no try to make. *)
Fixpoint retry_internal {A} (f : M A) (tries : nat) (delay backoff : Z)
    : M (option A) :=
  match tries with
  | O => ret None
  | S tries' =>
      fun w =>
        match f w with
        | (Ok a, w') => (Ok (Some a), w')
        | (Raise e, w') =>
            if caught e then
              match tries' with
              | O => (Raise e, w')
              | S _ =>
                  (let* _ := log WARNING (MsgRetrying e delay) in
                   let* _ := sleep (PyInt delay) in
                   retry_internal f tries' (delay * backoff) backoff) w'
              end
            else (Raise e, w')
        end
  end.

(** Line 43:
    [@retry((RequestTimeout, NetworkError), tries=8, delay=15, backoff=2)]
    around [main]. *)
Definition main (cycles : nat) (cfg : Config) (ex : env)
    : M (option (gmap string Order)) :=
  retry_internal (main_once cycles cfg ex) 8 15 2.

(** ** Reading a run *)

(** The world after more events, the store untouched. *)
Definition after (w : world) (evs : list event) : world :=
  {| w_db := w_db w; w_trace := w_trace w ++ evs;
     w_monotonic := w_monotonic w |}.

(** What the events added between two worlds are. *)
Definition new_events (w w' : world) : list event :=
  drop (length (w_trace w)) (w_trace w').

(** The time the host shows to a call made in world [w]. *)
Definition clock_at (ex : env) (w : world) : timeenv :=
  {| te_now := ex_clock ex (length (w_trace w));
     te_utcoffset := ex_utcoffset ex |}.

Definition insufficient_funds_url (cfg : Config) : telegram_url :=
  {| url_token := bot_token cfg;
     url_chat_id := chat_id cfg;
     url_text := MsgInsufficientFunds (retry_after cfg) |}.

Definition is_place_order (ev : event) : bool :=
  match ev with EvPlaceOrder _ _ _ _ => true | _ => false end.

Definition is_save (ev : event) : bool :=
  match ev with EvSave _ => true | _ => false end.

Definition is_fetch (ev : event) : bool :=
  match ev with EvFetchTickers _ => true | _ => false end.

Definition is_session_start (ev : event) : bool :=
  match ev with EvLog INFO (MsgStartSession _) => true | _ => false end.

Fixpoint count (p : event -> bool) (evs : list event) : nat :=
  match evs with
  | [] => O
  | ev :: rest => ((if p ev then 1 else 0) + count p rest)%nat
  end.

(** The lengths of the sleeps of a run, in order. *)
Fixpoint sleeps (evs : list event) : list pynum :=
  match evs with
  | [] => []
  | EvSleep seconds :: rest => seconds :: sleeps rest
  | _ :: rest => sleeps rest
  end.

(** Whether one round of the loop body, started in [w], asks the exchange
    for an order. *)
Definition order_attempted (cfg : Config) (ex : env)
    (orders : gmap string Order) (item : string * Ticker) (w : world)
    : bool :=
  existsb is_place_order
          (new_events w (snd (loop_body cfg ex orders item w))).

(** An action that only adds events, none of them a [save]. *)
Definition quiet {A} (m : M A) : Prop :=
  forall w, exists evs,
    snd (m w) = after w evs /\ existsb is_save evs = false.

(** An action that only adds events, at most [bound] of them the start of
    a session. *)
Definition starts_at_most {A} (bound : nat) (m : M A) : Prop :=
  forall w, exists evs,
    w_trace (snd (m w)) = (w_trace w ++ evs)%list
    /\ (count is_session_start evs <= bound)%nat.

(** Whether, after each announcement of a retry and its sleep, the next
    thing the program does is to fetch the tickers. *)
Fixpoint retry_resumes_at_fetch (evs : list event) : bool :=
  match evs with
  | [] => true
  | EvLog WARNING (MsgRetrying _ _) :: rest =>
      match rest with
      | EvSleep _ :: next :: _ => is_fetch next
      | _ => true
      end && retry_resumes_at_fetch rest
  | _ :: rest => retry_resumes_at_fetch rest
  end.

(** The lines that list the previous purchases. *)
Definition holdings_events (items : list (string * Order)) : list event :=
  map (fun kv => EvLog INFO (MsgHolding (fst kv) (o_amount (snd kv))
                                        (o_price (snd kv)))) items.

(** What [startup] adds to the trace when every symbol is supported, for
    a store holding [db]. *)
Definition startup_events (cfg : Config) (ex : env)
    (db : gmap string Order) : list event :=
  let orders := if reset_cache cfg then ∅ else db in
  [EvLog INFO (MsgStartSession (dry_run cfg))]
  ++ match ex_api_key ex, ex_api_secret ex with
     | Some _, Some _ => []
     | _, _ => [EvLog WARNING MsgCredentialsHint]
     end
  ++ match ex_api_key ex with
     | None => [EvPrompt "Enter your Binance API key"]
     | Some _ => []
     end
  ++ match ex_api_secret ex with
     | None => [EvPrompt "Enter your Binance API secret"]
     | Some _ => []
     end
  ++ [EvGetUnsupportedSymbols (tracked_symbols cfg)]
  ++ (if reset_cache cfg then [] else [EvGetOrders])
  ++ [EvLog INFO (MsgTracking (tracked_symbols cfg));
      EvLog INFO (MsgMinDrop (min_drop cfg));
      EvLog INFO (MsgAdditionalDrop (min_additional_drop cfg));
      EvLog INFO MsgVerboseHint]
  ++ match map_to_list orders with
     | [] => []
     | items => EvLog INFO MsgPreviouslyBought :: holdings_events items
     end.

(** The events of a run of [main] in which every call of the undecorated
    [main] adds [attempt] and fails: the calls that fail with an error of
    [errors] are followed by a retry, the one after them ends the run. *)
Fixpoint retry_events (attempt : list event) (errors : list exn)
    (delay : Z) : list event :=
  match errors with
  | [] => attempt
  | e :: rest =>
      attempt ++ [EvLog WARNING (MsgRetrying e delay); EvSleep (PyInt delay)]
      ++ retry_events attempt rest (delay * 2)
  end.

(** The delays of [n] retries that start at [delay] and double. *)
Fixpoint backoff_delays (delay : Z) (n : nat) : list Z :=
  match n with
  | O => []
  | S k => delay :: backoff_delays (delay * 2) k
  end.

(** ** Sample inputs *)

Definition sample_cfg : Config :=
  {| symbols := ["btc"];
     amount_usd := 50;
     freq := 10;
     min_drop := 7;
     min_additional_drop := 2;
     quote_currency := "USDT";
     dry_run := false;
     reset_cache := false;
     tickers := ["BTC/USDT"; "ETH/USDT"];
     retry_after := PyInt 30;
     bot_token := Some "token";
     chat_id := "42" |}.

(** A purchase of BTC/USDT at 30000, stamped in milliseconds. *)
Definition sample_order (timestamp : pynum) : Order :=
  {| o_price := 30000; o_amount := 0.5; o_timestamp := timestamp |}.

Definition no_orders : gmap string Order := ∅.

Definition sample_orders (timestamp : pynum) : gmap string Order :=
  {["BTC/USDT" := sample_order timestamp]}.

(** A host on UTC whose clock shows [seconds] after the epoch. *)
Definition sample_time (seconds : Z) : timeenv :=
  {| te_now := seconds * us_per_second; te_utcoffset := fun _ => 0 |}.

(** A world in which the clock shows 1700036000 s, every symbol is
    supported, the exchange answers as the arguments say and Telegram
    answers as [telegram] says. *)
Definition sample_env
    (fetch : nat -> result (list (string * Ticker)))
    (order : result Order) (telegram : http_outcome) : env :=
  {| ex_clock := fun _ => 1700036000 * us_per_second;
     ex_utcoffset := fun _ => 0;
     ex_api_key := Some "key";
     ex_api_secret := Some "secret";
     ex_get_unsupported_symbols := fun _ _ => Ok [];
     ex_fetch_tickers := fun n _ => fetch n;
     ex_place_order := fun _ _ _ _ _ => order;
     ex_requests_get := fun _ _ => telegram |}.

Definition sample_world (db : gmap string Order) : world :=
  {| w_db := db; w_trace := [];
     w_monotonic := fun _ => 86400 * 10 ^ 9 |}.

(** ** Reading a whole run *)

(** What [startup] adds about the credentials: the hint when one of the
    two environment variables is missing, and a prompt for each missing
    one. *)
Definition credential_events (ex : env) : list event :=
  match ex_api_key ex, ex_api_secret ex with
  | Some _, Some _ => []
  | _, _ => [EvLog WARNING MsgCredentialsHint]
  end
  ++ match ex_api_key ex with
     | None => [EvPrompt "Enter your Binance API key"]
     | Some _ => []
     end
  ++ match ex_api_secret ex with
     | None => [EvPrompt "Enter your Binance API secret"]
     | Some _ => []
     end.

(** What an event of a run of [main] with the arguments [cfg] in the world
    [ex] can be: a prompt only when a credential is missing, a look at the
    store only without [reset_cache], a question to the exchange only
    about the tracked symbols, an order only for the configured amount and
    mode, a request to Telegram only for the configured bot and chat. *)
Definition main_event (cfg : Config) (ex : env) (ev : event) : Prop :=
  match ev with
  | EvLog _ _ => True
  | EvPrompt _ => ex_api_key ex = None \/ ex_api_secret ex = None
  | EvGetUnsupportedSymbols syms => syms = tracked_symbols cfg
  | EvGetOrders => reset_cache cfg = false
  | EvFetchTickers syms => syms = tracked_symbols cfg
  | EvPlaceOrder _ _ amount dry =>
      amount = amount_usd cfg /\ dry = dry_run cfg
  | EvSave _ => True
  | EvRequestsGet url =>
      url_token url = bot_token cfg /\ url_chat_id url = chat_id cfg
  | EvSleep _ => True
  end.

(** An action that only adds events, each of them satisfying [P]. *)
Definition adds_only {A} (P : event -> Prop) (m : M A) : Prop :=
  forall w, exists evs,
    w_trace (snd (m w)) = (w_trace w ++ evs)%list /\ Forall P evs.

(** 1 for an environment variable that is not set. *)
Definition missing (variable : option string) : nat :=
  match variable with
  | Some _ => O
  | None => 1%nat
  end.

Definition is_prompt (ev : event) : bool :=
  match ev with EvPrompt _ => true | _ => false end.

Definition is_get_orders (ev : event) : bool :=
  match ev with EvGetOrders => true | _ => false end.

(** The mapping a part of the program returns and the store it leaves:
    either both are as they were, or the store holds the mapping. *)
Definition in_step (orders : gmap string Order) (w : world)
    (orders' : gmap string Order) (w' : world) : Prop :=
  (orders' = orders /\ w_db w' = w_db w) \/ w_db w' = orders'.

(** ** [NotificationsHelper.send_email] *)

(** Lines 5-6. *)
Definition port : Z := 587.
Definition smtp_server : string := "smtp.gmail.com".

(** What [smtplib] sends for the calls of [send_email]: the connection
    made by the constructor [SMTP(host, port)], the methods called on the
    server object, and the [QUIT] that leaving the [with] block sends. *)
Inductive smtp_command : Type :=
  | SmtpConnect (host : string) (port : Z)
  | SmtpEhlo
  | SmtpStartTls
  | SmtpLogin (user password : string)
  | SmtpSendmail (from_addr to_addr msg : string)
  | SmtpQuit.

(** A call that returns or raises the exception of the given name. *)
Inductive attempt (A : Type) : Type :=
  | Done (a : A)
  | Failed (error : string).
Arguments Done {A} a.
Arguments Failed {A} error.

(** The mail server: how the call that sends the [n]-th command ends. *)
Definition smtp_peer : Type := nat -> smtp_command -> attempt unit.

(** A session: the commands sent so far. *)
Definition smtp_call (peer : smtp_peer) (c : smtp_command)
    (sent : list smtp_command) : attempt unit * list smtp_command :=
  (peer (length sent) c, (sent ++ [c])%list).

(** The calls of a block, in order, up to the first that raises. *)
Fixpoint smtp_block (peer : smtp_peer) (cs : list smtp_command)
    (sent : list smtp_command) : attempt unit * list smtp_command :=
  match cs with
  | [] => (Done tt, sent)
  | c :: rest =>
      match smtp_call peer c sent with
      | (Done _, sent') => smtp_block peer rest sent'
      | (Failed error, sent') => (Failed error, sent')
      end
  end.

(** Lines 9-16.  The constructor connects; when it raises there is no
    server object and no block.  Leaving the block, normally or by an
    exception, sends [QUIT] ([SMTP.__exit__]); an exception of that call
    takes the place of the one of the block.  The construction of the SSL
    context, which talks to no one, is left out. *)
Definition send_email (peer : smtp_peer)
    (sender_email receiver_email pwd msg : string)
    : attempt unit * list smtp_command :=
  match smtp_call peer (SmtpConnect smtp_server port) [] with
  | (Failed error, sent) => (Failed error, sent)
  | (Done _, sent) =>
      let '(body, sent') :=
        smtp_block peer
          [SmtpEhlo; SmtpStartTls; SmtpEhlo;
           SmtpLogin sender_email pwd;
           SmtpSendmail sender_email receiver_email msg] sent in
      match smtp_call peer SmtpQuit sent' with
      | (Failed error, sent'') => (Failed error, sent'')
      | (Done _, sent'') => (body, sent'')
      end
  end.

(** The commands of a call in which nothing goes wrong. *)
Definition smtp_script (sender_email receiver_email pwd msg : string)
    : list smtp_command :=
  [SmtpConnect smtp_server port; SmtpEhlo; SmtpStartTls; SmtpEhlo;
   SmtpLogin sender_email pwd;
   SmtpSendmail sender_email receiver_email msg; SmtpQuit].

(** * Properties *)

(** ** Numbers, strings and days *)

Lemma string_of_uint_no_dot (d : Decimal.uint) :
  str_contains "." (NilEmpty.string_of_uint d) = false.
Proof. induction d; simpl; auto. Qed.

Lemma str_of_Z_no_dot (z : Z) : str_contains "." (str_of_Z z) = false.
Proof.
  unfold str_of_Z.
  assert (H : forall d, str_contains "." (NilZero.string_of_uint d) = false).
  { intros d. destruct d; try reflexivity; apply string_of_uint_no_dot. }
  destruct z; simpl; auto.
Qed.

Lemma timedelta_days_le_1 (diff : Z) :
  (timedelta_days diff <=? 1) = true <-> diff < 2 * us_per_day.
Proof.
  unfold timedelta_days, us_per_day, us_per_second.
  rewrite Z.leb_le.
  pose proof (Z.div_mod diff (86400 * 1000000) ltac:(lia)) as Hd.
  pose proof (Z.mod_pos_bound diff (86400 * 1000000) ltac:(lia)) as Hm.
  lia.
Qed.

Lemma bought_less_than_24h_ago_unfold te symbol orders order :
  orders !! symbol = Some order ->
  bought_less_than_24h_ago te symbol orders =
    rbind (normalise_timestamp (o_timestamp order)) (fun timestamp =>
    rbind (fromtimestamp te timestamp) (fun bought_on =>
    Ok (timedelta_days (datetime_now te - bought_on) <=? 1))).
Proof. intros H. unfold bought_less_than_24h_ago. rewrite H. reflexivity. Qed.

Lemma py_in_Some symbol (orders : gmap string Order) order :
  orders !! symbol = Some order -> py_in symbol orders = true.
Proof.
  intros H. unfold py_in. apply bool_decide_eq_true. rewrite H. eauto.
Qed.

Lemma py_in_None symbol (orders : gmap string Order) :
  orders !! symbol = None -> py_in symbol orders = false.
Proof.
  intros H. unfold py_in. apply bool_decide_eq_false. rewrite H.
  intros [x Hx]. discriminate.
Qed.

(** ** The decision *)

Lemma decide_recent te cfg orders symbol order ticker :
  orders !! symbol = Some order ->
  bought_less_than_24h_ago te symbol orders = Ok true ->
  decide te cfg orders symbol ticker =
    rbind (float_truediv (t_last ticker) (o_price order)) (fun q =>
      let pct := ((q - 1) * 100)%float in
      Ok {| buy_first_time := false;
            buy_again := (pct <? - min_additional_drop cfg)%float;
            discount_pct := Some pct |}).
Proof.
  intros Hin Hrecent. unfold decide.
  rewrite (py_in_Some _ _ _ Hin), Hrecent. simpl. rewrite Hin. reflexivity.
Qed.

Lemma decide_first_time te cfg orders symbol ticker :
  (if py_in symbol orders then bought_less_than_24h_ago te symbol orders
   else Ok false) = Ok false ->
  decide te cfg orders symbol ticker =
    Ok {| buy_first_time := (t_percentage ticker <? - min_drop cfg)%float;
          buy_again := false;
          discount_pct := None |}.
Proof. intros H. unfold decide. rewrite H. reflexivity. Qed.

Lemma decide_one_flag te cfg orders symbol ticker d :
  decide te cfg orders symbol ticker = Ok d ->
  buy_first_time d && buy_again d = false.
Proof.
  unfold decide.
  destruct (if py_in symbol orders then _ else _) as [[|]|e]; simpl;
    [|intros [= <-]; simpl; apply andb_false_r|discriminate].
  destruct (orders !! symbol) as [order|]; [|discriminate].
  destruct (float_truediv _ _) as [q|e]; simpl; [|discriminate].
  intros [= <-]. reflexivity.
Qed.

(** ** Running the actions *)

Lemma after_nil w : after w [] = w.
Proof. destruct w. unfold after. simpl. rewrite app_nil_r. reflexivity. Qed.

Lemma after_after w l1 l2 : after (after w l1) l2 = after w (l1 ++ l2).
Proof. unfold after. simpl. rewrite <- app_assoc. reflexivity. Qed.

Lemma length_after w evs :
  length (w_trace (after w evs)) = (length (w_trace w) + length evs)%nat.
Proof. unfold after. simpl. apply length_app. Qed.

Lemma new_events_after w evs : new_events w (after w evs) = evs.
Proof. unfold new_events, after. simpl. apply drop_app_length. Qed.

Lemma emit_after ev w : emit ev w = (Ok tt, after w [ev]).
Proof. reflexivity. Qed.

Ltac run :=
  unfold bind, position, lift, log, ret, raise;
  cbn beta iota; cbn [fst snd].

Lemma place_order_run ex symbol price amount dry w :
  place_order ex symbol price amount dry w =
    (ex_place_order ex (length (w_trace w)) symbol price amount dry,
     after w [EvPlaceOrder symbol price amount dry]).
Proof.
  unfold place_order. run. rewrite emit_after.
  destruct (ex_place_order _ _ _ _ _ _); reflexivity.
Qed.

Lemma fetch_tickers_run ex syms w :
  fetch_tickers ex syms w =
    (ex_fetch_tickers ex (length (w_trace w)) syms,
     after w [EvFetchTickers syms]).
Proof.
  unfold fetch_tickers. run. rewrite emit_after.
  destruct (ex_fetch_tickers _ _ _); reflexivity.
Qed.

Lemma get_unsupported_symbols_run ex syms w :
  get_unsupported_symbols ex syms w =
    (ex_get_unsupported_symbols ex (length (w_trace w)) syms,
     after w [EvGetUnsupportedSymbols syms]).
Proof.
  unfold get_unsupported_symbols. run. rewrite emit_after.
  destruct (ex_get_unsupported_symbols _ _ _); reflexivity.
Qed.

Lemma send_msg_run ex token chat msg w :
  send_msg ex token chat msg w =
    let url := {| url_token := token; url_chat_id := chat;
                  url_text := msg |} in
    (match ex_requests_get ex (length (w_trace w)) url with
     | Response _ => Ok tt
     | RequestFailure name => Raise (RequestException name)
     end, after w [EvRequestsGet url]).
Proof.
  unfold send_msg, requests_get. run. rewrite emit_after.
  destruct (ex_requests_get _ _ _); reflexivity.
Qed.

Lemma sleep_run seconds w :
  sleep seconds w =
    match sleep_check (monotonic w) seconds with
    | Ok _ => (Ok tt, after w [EvSleep seconds])
    | Raise e => (Raise e, w)
    end.
Proof.
  unfold sleep. run. destruct (sleep_check _ seconds); reflexivity.
Qed.

(** The loop body, case by case. *)
Lemma loop_body_run cfg ex orders symbol ticker w :
  loop_body cfg ex orders (symbol, ticker) w =
    match decide (clock_at ex w) cfg orders symbol ticker with
    | Raise e => (Raise e, w)
    | Ok d =>
        if triggers d then
          let placed := EvPlaceOrder symbol (t_last ticker) (amount_usd cfg)
                                     (dry_run cfg) in
          match ex_place_order ex (length (w_trace w)) symbol
                  (t_last ticker) (amount_usd cfg) (dry_run cfg) with
          | Raise InsufficientFunds =>
              let w1 :=
                after w [placed;
                         EvLog WARNING
                               (MsgInsufficientFunds (retry_after cfg));
                         EvRequestsGet (insufficient_funds_url cfg)] in
              match ex_requests_get ex (length (w_trace w) + 2)
                                    (insufficient_funds_url cfg) with
              | RequestFailure name => (Raise (RequestException name), w1)
              | Response _ =>
                  match pynum_mul_int (retry_after cfg) 60 with
                  | Raise e => (Raise e, w1)
                  | Ok seconds =>
                      match sleep_check (monotonic w1) seconds with
                      | Raise e => (Raise e, w1)
                      | Ok _ => (Ok orders, after w1 [EvSleep seconds])
                      end
                  end
              end
          | Raise e => (Raise e, after w [placed])
          | Ok order =>
              let orders' := <[symbol := order]> orders in
              let msg :=
                match buy_again d, discount_pct d with
                | true, Some pct => MsgBuyAgain symbol (t_last ticker) pct
                | _, _ => MsgBuyFirstTime symbol (t_last ticker)
                                          (t_percentage ticker)
                end in
              let url := {| url_token := bot_token cfg;
                            url_chat_id := chat_id cfg;
                            url_text := msg |} in
              (match ex_requests_get ex (length (w_trace w) + 3) url with
               | Response _ => Ok orders'
               | RequestFailure name => Raise (RequestException name)
               end,
               {| w_db := orders';
                  w_trace := w_trace w ++ [placed; EvSave orders';
                                           EvLog INFO msg;
                                           EvRequestsGet url];
                  w_monotonic := w_monotonic w |})
          end
        else
          (Ok orders,
           after w [EvLog DEBUG (MsgNotEnoughDiscount symbol (t_last ticker)
                                                  (t_percentage ticker))])
    end.
Proof.
  unfold loop_body. run. fold (clock_at ex w).
  destruct (decide _ _ _ _ _) as [d|e]; [|reflexivity].
  destruct (triggers d); [|reflexivity].
  rewrite place_order_run.
  destruct (ex_place_order _ _ _ _ _ _) as [order|e].
  - unfold save. run. unfold emit. cbn [w_trace w_db after].
    rewrite send_msg_run. cbn zeta. unfold after. cbn [w_trace w_db].
    rewrite ?length_app. cbn [length].
    rewrite <- ?Nat.add_assoc. cbn [Nat.add].
    rewrite <- ?app_assoc. cbn [app].
    destruct (ex_requests_get _ _ _); reflexivity.
  - destruct e; try reflexivity.
    rewrite emit_after. rewrite send_msg_run. cbn zeta.
    rewrite !after_after. cbn [app]. rewrite !length_after. cbn [length].
    rewrite <- ?Nat.add_assoc. cbn [Nat.add].
    fold (insufficient_funds_url cfg).
    destruct (ex_requests_get _ _ _); [|reflexivity].
    destruct (pynum_mul_int _ _) as [seconds|e]; [|reflexivity].
    rewrite sleep_run. destruct (sleep_check _ seconds); [|reflexivity].
    rewrite after_after. reflexivity.
Qed.

Lemma order_attempted_triggers cfg ex orders symbol ticker w d :
  decide (clock_at ex w) cfg orders symbol ticker = Ok d ->
  order_attempted cfg ex orders (symbol, ticker) w = triggers d.
Proof.
  intros Hd. unfold order_attempted. rewrite loop_body_run, Hd.
  destruct (triggers d); [|cbn [snd]; rewrite new_events_after; reflexivity].
  cbn zeta.
  destruct (ex_place_order _ _ _ _ _ _) as [order|e].
  - cbn [snd]. unfold new_events. cbn [w_trace].
    rewrite drop_app_length. reflexivity.
  - destruct e; cbn [snd]; try (rewrite new_events_after; reflexivity).
    destruct (ex_requests_get _ _ _);
      [|cbn [snd]; rewrite new_events_after; reflexivity].
    destruct (pynum_mul_int _ _) as [seconds|e];
      [|cbn [snd]; rewrite new_events_after; reflexivity].
    destruct (sleep_check _ seconds); cbn [snd];
      rewrite ?after_after, new_events_after; reflexivity.
Qed.

(** ** The two rules of the Dip Detector *)

Lemma first_time_attempt cfg ex orders symbol ticker w :
  (if py_in symbol orders
   then bought_less_than_24h_ago (clock_at ex w) symbol orders
   else Ok false) = Ok false ->
  let rule := (t_percentage ticker <? - min_drop cfg)%float in
  decide (clock_at ex w) cfg orders symbol ticker =
    Ok {| buy_first_time := rule; buy_again := false;
          discount_pct := None |}
  /\ order_attempted cfg ex orders (symbol, ticker) w = rule.
Proof.
  intros Hold rule.
  assert (Hd : decide (clock_at ex w) cfg orders symbol ticker =
    Ok {| buy_first_time := rule; buy_again := false;
          discount_pct := None |}) by (apply decide_first_time; exact Hold).
  split; [exact Hd|].
  rewrite (order_attempted_triggers _ _ _ _ _ _ _ Hd).
  unfold triggers. cbn [buy_first_time buy_again]. apply orb_false_r.
Qed.


(** C1: a symbol bought within the day window is bought again exactly
    when [(current / last_buy - 1) * 100 < -min_additional_drop]: this is
    the value of [buy_again], the first-time flag stays off, and the loop
    body asks for an order exactly then, whatever the 24h percentage of
    the ticker is.  The price of the record is not zero, as the data model
    has it (the division raises on a zero price). *)
Theorem buy_again_rule cfg ex orders symbol order ticker w :
  orders !! symbol = Some order ->
  bought_less_than_24h_ago (clock_at ex w) symbol orders = Ok true ->
  (o_price order =? 0)%float = false ->
  let pct := ((t_last ticker / o_price order - 1) * 100)%float in
  let rule := (pct <? - min_additional_drop cfg)%float in
  decide (clock_at ex w) cfg orders symbol ticker =
    Ok {| buy_first_time := false; buy_again := rule;
          discount_pct := Some pct |}
  /\ order_attempted cfg ex orders (symbol, ticker) w = rule
  /\ forall percentage,
       order_attempted cfg ex orders
         (symbol, {| t_last := t_last ticker; t_percentage := percentage |})
         w = rule.
Proof.
  intros Hin Hrecent Hprice pct rule.
  assert (Hd : forall percentage,
    decide (clock_at ex w) cfg orders symbol
           {| t_last := t_last ticker; t_percentage := percentage |} =
    Ok {| buy_first_time := false; buy_again := rule;
          discount_pct := Some pct |}).
  { intros percentage. rewrite (decide_recent _ _ _ _ _ _ Hin Hrecent).
    unfold float_truediv. cbn [t_last]. rewrite Hprice. reflexivity. }
  assert (Hd' : decide (clock_at ex w) cfg orders symbol ticker =
    Ok {| buy_first_time := false; buy_again := rule;
          discount_pct := Some pct |}).
  { destruct ticker as [l p]. apply (Hd p). }
  split; [exact Hd'|]. split.
  - rewrite (order_attempted_triggers _ _ _ _ _ _ _ Hd'). reflexivity.
  - intros percentage.
    rewrite (order_attempted_triggers _ _ _ _ _ _ _ (Hd percentage)).
    reflexivity.
Qed.

(** The scenario of the specification: bought ten hours ago at 30000, now
    at 29000 with a rising 24h percentage and [min_additional_drop = 2]:
    an order is placed; at 29500 none is. *)
Lemma buy_again_rule_witness :
  let ex := sample_env (fun _ => Ok []) (Raise InsufficientFunds)
                       (Response 200) in
  let orders := sample_orders (PyInt 1700000000000) in
  order_attempted sample_cfg ex orders
    ("BTC/USDT", {| t_last := 29000; t_percentage := 5 |})
    (sample_world orders) = true
  /\ order_attempted sample_cfg ex orders
    ("BTC/USDT", {| t_last := 29500; t_percentage := -50 |})
    (sample_world orders) = false.
Proof.
  split.
  - rewrite (proj1 (proj2 (buy_again_rule sample_cfg
      (sample_env (fun _ => Ok []) (Raise InsufficientFunds) (Response 200))
      (sample_orders (PyInt 1700000000000)) "BTC/USDT"
      (sample_order (PyInt 1700000000000))
      {| t_last := 29000; t_percentage := 5 |}
      (sample_world (sample_orders (PyInt 1700000000000)))
      ltac:(vm_compute; reflexivity) ltac:(vm_compute; reflexivity)
      ltac:(vm_compute; reflexivity)))).
    vm_compute. reflexivity.
  - rewrite (proj1 (proj2 (buy_again_rule sample_cfg
      (sample_env (fun _ => Ok []) (Raise InsufficientFunds) (Response 200))
      (sample_orders (PyInt 1700000000000)) "BTC/USDT"
      (sample_order (PyInt 1700000000000))
      {| t_last := 29500; t_percentage := -50 |}
      (sample_world (sample_orders (PyInt 1700000000000)))
      ltac:(vm_compute; reflexivity) ltac:(vm_compute; reflexivity)
      ltac:(vm_compute; reflexivity)))).
    vm_compute. reflexivity.
Defined.

(** C2: a symbol with no record in the mapping is bought for the first
    time exactly when the 24h percentage of its ticker is below
    [-min_drop]: this is the value of [buy_first_time], the buy-again flag
    stays off, and the loop body asks for an order exactly then. *)
Theorem first_time_rule cfg ex orders symbol ticker w :
  orders !! symbol = None ->
  let rule := (t_percentage ticker <? - min_drop cfg)%float in
  decide (clock_at ex w) cfg orders symbol ticker =
    Ok {| buy_first_time := rule; buy_again := false;
          discount_pct := None |}
  /\ order_attempted cfg ex orders (symbol, ticker) w = rule.
Proof.
  intros Hnone. apply first_time_attempt.
  rewrite (py_in_None _ _ Hnone). reflexivity.
Qed.

(** The scenario of the specification: never bought, 24h percentage -8,
    [min_drop = 7]: an order is placed; at -7 none is. *)
Lemma first_time_rule_witness :
  let ex := sample_env (fun _ => Ok []) (Raise InsufficientFunds)
                       (Response 200) in
  order_attempted sample_cfg ex no_orders
    ("BTC/USDT", {| t_last := 29000; t_percentage := -8 |})
    (sample_world no_orders) = true
  /\ order_attempted sample_cfg ex no_orders
    ("BTC/USDT", {| t_last := 29000; t_percentage := -7 |})
    (sample_world no_orders) = false.
Proof.
  split.
  - rewrite (proj2 (first_time_rule sample_cfg
      (sample_env (fun _ => Ok []) (Raise InsufficientFunds) (Response 200))
      no_orders "BTC/USDT" {| t_last := 29000; t_percentage := -8 |}
      (sample_world no_orders) ltac:(vm_compute; reflexivity))).
    vm_compute. reflexivity.
  - rewrite (proj2 (first_time_rule sample_cfg
      (sample_env (fun _ => Ok []) (Raise InsufficientFunds) (Response 200))
      no_orders "BTC/USDT" {| t_last := 29000; t_percentage := -7 |}
      (sample_world no_orders) ltac:(vm_compute; reflexivity))).
    vm_compute. reflexivity.
Defined.

(** C3: a record older than the day window changes nothing: the decision
    and the order are those of the same mapping without the record, that
    is the first-time rule on the 24h percentage; neither the price of the
    old buy nor [min_additional_drop] has a part in them. *)
Theorem stale_record_rule cfg ex orders symbol order ticker w :
  orders !! symbol = Some order ->
  bought_less_than_24h_ago (clock_at ex w) symbol orders = Ok false ->
  let rule := (t_percentage ticker <? - min_drop cfg)%float in
  decide (clock_at ex w) cfg orders symbol ticker =
    Ok {| buy_first_time := rule; buy_again := false;
          discount_pct := None |}
  /\ decide (clock_at ex w) cfg orders symbol ticker
     = decide (clock_at ex w) cfg (delete symbol orders) symbol ticker
  /\ order_attempted cfg ex orders (symbol, ticker) w = rule
  /\ order_attempted cfg ex (delete symbol orders) (symbol, ticker) w = rule.
Proof.
  intros Hin Hstale rule.
  destruct (first_time_attempt cfg ex orders symbol ticker w) as [Hd Ha].
  { rewrite (py_in_Some _ _ _ Hin). exact Hstale. }
  destruct (first_time_attempt cfg ex (delete symbol orders) symbol ticker w)
    as [Hd' Ha'].
  { rewrite py_in_None; [reflexivity|]. apply lookup_delete_eq. }
  split; [exact Hd|]. split; [rewrite Hd, Hd'; reflexivity|].
  split; [exact Ha|exact Ha'].
Qed.

(** Bought three days ago at 30000: at 20000 with a flat 24h percentage
    nothing is bought, at 20000 with -8 percent an order is placed. *)
Lemma stale_record_rule_witness :
  let ex := sample_env (fun _ => Ok []) (Raise InsufficientFunds)
                       (Response 200) in
  let orders := sample_orders (PyInt 1699776800000) in
  order_attempted sample_cfg ex orders
    ("BTC/USDT", {| t_last := 20000; t_percentage := 0 |})
    (sample_world orders) = false
  /\ order_attempted sample_cfg ex orders
    ("BTC/USDT", {| t_last := 20000; t_percentage := -8 |})
    (sample_world orders) = true.
Proof.
  split.
  - rewrite (proj1 (proj2 (proj2 (stale_record_rule sample_cfg
      (sample_env (fun _ => Ok []) (Raise InsufficientFunds) (Response 200))
      (sample_orders (PyInt 1699776800000)) "BTC/USDT"
      (sample_order (PyInt 1699776800000))
      {| t_last := 20000; t_percentage := 0 |}
      (sample_world (sample_orders (PyInt 1699776800000)))
      ltac:(vm_compute; reflexivity) ltac:(vm_compute; reflexivity))))).
    vm_compute. reflexivity.
  - rewrite (proj1 (proj2 (proj2 (stale_record_rule sample_cfg
      (sample_env (fun _ => Ok []) (Raise InsufficientFunds) (Response 200))
      (sample_orders (PyInt 1699776800000)) "BTC/USDT"
      (sample_order (PyInt 1699776800000))
      {| t_last := 20000; t_percentage := -8 |}
      (sample_world (sample_orders (PyInt 1699776800000)))
      ltac:(vm_compute; reflexivity) ltac:(vm_compute; reflexivity))))).
    vm_compute. reflexivity.
Defined.

(** ** One round of the loop body *)

(** C5: the two flags are never both set; and when neither is, the round
    asks for no order, returns the mapping as it was, leaves the store as
    it was and adds one event, the debug line "not enough discount". *)
Theorem one_trigger_path cfg ex orders symbol ticker w d :
  decide (clock_at ex w) cfg orders symbol ticker = Ok d ->
  buy_first_time d && buy_again d = false
  /\ (triggers d = false ->
      loop_body cfg ex orders (symbol, ticker) w =
        (Ok orders,
         after w [EvLog DEBUG (MsgNotEnoughDiscount symbol (t_last ticker)
                                                (t_percentage ticker))])
      /\ order_attempted cfg ex orders (symbol, ticker) w = false
      /\ w_db (snd (loop_body cfg ex orders (symbol, ticker) w)) = w_db w).
Proof.
  intros Hd. split; [exact (decide_one_flag _ _ _ _ _ _ Hd)|].
  intros Hno.
  assert (Hrun : loop_body cfg ex orders (symbol, ticker) w =
    (Ok orders,
     after w [EvLog DEBUG (MsgNotEnoughDiscount symbol (t_last ticker)
                                            (t_percentage ticker))])).
  { rewrite loop_body_run, Hd, Hno. reflexivity. }
  split; [exact Hrun|]. split.
  - rewrite (order_attempted_triggers _ _ _ _ _ _ _ Hd). exact Hno.
  - rewrite Hrun. reflexivity.
Qed.

(** Bought ten hours ago at 30000, now at 29500: nothing but the debug
    line. *)
Lemma one_trigger_path_witness :
  let ex := sample_env (fun _ => Ok []) (Raise InsufficientFunds)
                       (Response 200) in
  let orders := sample_orders (PyInt 1700000000000) in
  loop_body sample_cfg ex orders
    ("BTC/USDT", {| t_last := 29500; t_percentage := -1 |})
    (sample_world orders) =
  (Ok orders,
   after (sample_world orders)
     [EvLog DEBUG (MsgNotEnoughDiscount "BTC/USDT" 29500 (-1))]).
Proof.
  exact (proj1 (proj2 (one_trigger_path sample_cfg
    (sample_env (fun _ => Ok []) (Raise InsufficientFunds) (Response 200))
    (sample_orders (PyInt 1700000000000)) "BTC/USDT"
    {| t_last := 29500; t_percentage := -1 |}
    (sample_world (sample_orders (PyInt 1700000000000)))
    _ ltac:(vm_compute; reflexivity)) ltac:(vm_compute; reflexivity))).
Defined.

(** C6, as stated: "the operator is notified, the entire loop sleeps ...
    and evaluation then continues with the next symbol".  Two tickers are
    due for a buy, the exchange reports insufficient funds and the request
    to the channel fails to connect: the iteration ends at the first
    ticker with the exception of the request, without a sleep and without
    a look at the second ticker. *)
Lemma insufficient_funds_without_pause :
  let items := [("BTC/USDT", {| t_last := 29000; t_percentage := -8 |});
                ("ETH/USDT", {| t_last := 1500; t_percentage := -9 |})] in
  let ex := sample_env (fun _ => Ok items) (Raise InsufficientFunds)
                       (RequestFailure "ConnectionError") in
  for_each_ticker sample_cfg ex items no_orders (sample_world no_orders) =
  (Raise (RequestException "ConnectionError"),
   after (sample_world no_orders)
     [EvPlaceOrder "BTC/USDT" 29000 50 false;
      EvLog WARNING (MsgInsufficientFunds (PyInt 30));
      EvRequestsGet (insufficient_funds_url sample_cfg)]).
Proof. vm_compute. reflexivity. Qed.

(** C6, amended: when the order raises [InsufficientFunds], the round
    logs the warning and makes the request to the operator's channel; the
    mapping and the store are never touched.  When the request returns,
    with any status, and [retry_after * 60] is a length [time.sleep]
    accepts, the round sleeps that many seconds and ends normally, and the
    iteration goes on with the next ticker.  When the request raises, the
    round and the iteration end with that exception and nothing sleeps;
    when the sleep is refused, they end with its exception. *)
Theorem insufficient_funds_pause cfg ex orders symbol ticker rest w d
    seconds :
  decide (clock_at ex w) cfg orders symbol ticker = Ok d ->
  triggers d = true ->
  ex_place_order ex (length (w_trace w)) symbol (t_last ticker)
                 (amount_usd cfg) (dry_run cfg) = Raise InsufficientFunds ->
  pynum_mul_int (retry_after cfg) 60 = Ok seconds ->
  let item := (symbol, ticker) in
  let w1 :=
    after w [EvPlaceOrder symbol (t_last ticker) (amount_usd cfg)
                          (dry_run cfg);
             EvLog WARNING (MsgInsufficientFunds (retry_after cfg));
             EvRequestsGet (insufficient_funds_url cfg)] in
  let answer :=
    ex_requests_get ex (length (w_trace w) + 2) (insufficient_funds_url cfg)
  in
  (forall status,
     answer = Response status ->
     sleep_check (monotonic w1) seconds = Ok tt ->
     loop_body cfg ex orders item w
       = (Ok orders, after w1 [EvSleep seconds])
     /\ for_each_ticker cfg ex (item :: rest) orders w
        = for_each_ticker cfg ex rest orders (after w1 [EvSleep seconds]))
  /\ (forall name,
        answer = RequestFailure name ->
        loop_body cfg ex orders item w = (Raise (RequestException name), w1)
        /\ for_each_ticker cfg ex (item :: rest) orders w
           = (Raise (RequestException name), w1))
  /\ (forall status e,
        answer = Response status ->
        sleep_check (monotonic w1) seconds = Raise e ->
        loop_body cfg ex orders item w = (Raise e, w1)
        /\ for_each_ticker cfg ex (item :: rest) orders w = (Raise e, w1))
  /\ w_db (snd (loop_body cfg ex orders item w)) = w_db w
  /\ existsb is_save (new_events w (snd (loop_body cfg ex orders item w)))
     = false
  /\ (forall orders',
        fst (loop_body cfg ex orders item w) = Ok orders' ->
        orders' = orders).
Proof.
  intros Hd Ht Hp Hm item w1 answer.
  assert (Hrun : loop_body cfg ex orders item w =
    match answer with
    | RequestFailure name => (Raise (RequestException name), w1)
    | Response _ =>
        match sleep_check (monotonic w1) seconds with
        | Raise e => (Raise e, w1)
        | Ok _ => (Ok orders, after w1 [EvSleep seconds])
        end
    end).
  { unfold item. rewrite loop_body_run, Hd, Ht. cbn zeta.
    rewrite Hp, Hm. reflexivity. }
  assert (Hiter : forall r w',
    loop_body cfg ex orders item w = (r, w') ->
    for_each_ticker cfg ex (item :: rest) orders w =
      match r with
      | Ok orders' => for_each_ticker cfg ex rest orders' w'
      | Raise e => (Raise e, w')
      end).
  { intros r w' H. cbn [for_each_ticker]. unfold bind at 1. rewrite H.
    destruct r; reflexivity. }
  repeat split.
  - rewrite Hrun, H, H0. reflexivity.
  - rewrite (Hiter (Ok orders) (after w1 [EvSleep seconds])); [reflexivity|].
    rewrite Hrun, H, H0. reflexivity.
  - rewrite Hrun, H. reflexivity.
  - rewrite (Hiter (Raise (RequestException name)) w1); [reflexivity|].
    rewrite Hrun, H. reflexivity.
  - rewrite Hrun, H, H0. reflexivity.
  - rewrite (Hiter (Raise e) w1); [reflexivity|].
    rewrite Hrun, H, H0. reflexivity.
  - rewrite Hrun. destruct answer; [|reflexivity].
    destruct (sleep_check _ _); reflexivity.
  - rewrite Hrun. unfold w1.
    destruct answer; cbn [snd]; [|rewrite new_events_after; reflexivity].
    destruct (sleep_check _ _); cbn [snd];
      rewrite ?after_after, new_events_after; reflexivity.
  - intros orders'. rewrite Hrun. destruct answer; [|discriminate].
    destruct (sleep_check _ _); cbn [fst]; congruence.
Qed.

(** Never bought, 24h percentage -8, no funds, [retry_after = 30], the
    channel answers: the round sleeps 1800 seconds and the store stays
    empty. *)
Lemma insufficient_funds_pause_witness :
  let ex := sample_env (fun _ => Ok []) (Raise InsufficientFunds)
                       (Response 200) in
  let item := ("BTC/USDT", {| t_last := 29000; t_percentage := -8 |}) in
  loop_body sample_cfg ex no_orders item (sample_world no_orders) =
  (Ok no_orders,
   after (sample_world no_orders)
     [EvPlaceOrder "BTC/USDT" 29000 50 false;
      EvLog WARNING (MsgInsufficientFunds (PyInt 30));
      EvRequestsGet (insufficient_funds_url sample_cfg);
      EvSleep (PyInt 1800)]).
Proof.
  exact (proj1 (proj1 (insufficient_funds_pause sample_cfg
    (sample_env (fun _ => Ok []) (Raise InsufficientFunds) (Response 200))
    no_orders "BTC/USDT" {| t_last := 29000; t_percentage := -8 |} []
    (sample_world no_orders) _ (PyInt 1800)
    ltac:(vm_compute; reflexivity) ltac:(vm_compute; reflexivity)
    ltac:(vm_compute; reflexivity) ltac:(vm_compute; reflexivity))
    200 ltac:(vm_compute; reflexivity) ltac:(vm_compute; reflexivity))).
Defined.

(** ** Who writes the store *)

Lemma no_save_app l1 l2 :
  existsb is_save l1 = false -> existsb is_save l2 = false ->
  existsb is_save (l1 ++ l2) = false.
Proof. intros H1 H2. rewrite existsb_app, H1, H2. reflexivity. Qed.

Lemma quiet_ret {A} (a : A) : quiet (ret a).
Proof. intros w. exists []. rewrite after_nil. split; reflexivity. Qed.

Lemma quiet_raise {A} e : quiet (@raise A e).
Proof. intros w. exists []. rewrite after_nil. split; reflexivity. Qed.

Lemma quiet_lift {A} (r : result A) : quiet (lift r).
Proof. intros w. exists []. rewrite after_nil. split; reflexivity. Qed.

Lemma quiet_position : quiet position.
Proof. intros w. exists []. rewrite after_nil. split; reflexivity. Qed.

Lemma quiet_emit ev : is_save ev = false -> quiet (emit ev).
Proof.
  intros H w. exists [ev]. split; [reflexivity|].
  cbn [existsb]. rewrite H. reflexivity.
Qed.

Lemma quiet_bind {A B} (m : M A) (k : A -> M B) :
  quiet m -> (forall a, quiet (k a)) -> quiet (bind m k).
Proof.
  intros Hm Hk w. unfold bind.
  destruct (Hm w) as (l1 & E1 & S1).
  destruct (m w) as [[a|e] w1]; cbn [snd] in E1; subst w1.
  - destruct (Hk a (after w l1)) as (l2 & E2 & S2).
    exists (l1 ++ l2)%list. rewrite E2, after_after.
    split; [reflexivity|]. apply no_save_app; assumption.
  - exists l1. split; [reflexivity|assumption].
Qed.

Lemma quiet_ext {A} (m m' : M A) :
  (forall w, m w = m' w) -> quiet m' -> quiet m.
Proof. intros E H w. rewrite E. apply H. Qed.

Ltac quiet_steps :=
  repeat first
    [ apply quiet_ret | apply quiet_raise | apply quiet_lift
    | apply quiet_position
    | apply quiet_emit; reflexivity
    | apply quiet_bind; [|intros ?] ].

Lemma quiet_sleep seconds : quiet (sleep seconds).
Proof. unfold sleep. quiet_steps. Qed.

Lemma quiet_log lvl m : quiet (log lvl m).
Proof. unfold log. quiet_steps. Qed.

Lemma quiet_get_orders : quiet get_orders.
Proof.
  unfold get_orders. apply quiet_bind; [quiet_steps|].
  intros _ w. exists []. rewrite after_nil. split; reflexivity.
Qed.

Lemma quiet_fetch_tickers ex syms : quiet (fetch_tickers ex syms).
Proof. unfold fetch_tickers. quiet_steps. Qed.

Lemma quiet_get_unsupported_symbols ex syms :
  quiet (get_unsupported_symbols ex syms).
Proof. unfold get_unsupported_symbols. quiet_steps. Qed.

Lemma quiet_send_msg ex token chat msg : quiet (send_msg ex token chat msg).
Proof.
  unfold send_msg, requests_get. quiet_steps.
  destruct (ex_requests_get _ _ _); quiet_steps.
Qed.

Lemma quiet_log_holdings items : quiet (log_holdings items).
Proof.
  induction items as [|[key value] rest IH]; cbn [log_holdings].
  - apply quiet_ret.
  - apply quiet_bind; [apply quiet_log|intros _; exact IH].
Qed.

Lemma quiet_startup cfg ex : quiet (startup cfg ex).
Proof.
  unfold startup.
  apply quiet_bind; [apply quiet_log|intros _].
  apply quiet_bind;
    [destruct (ex_api_key ex), (ex_api_secret ex);
     first [apply quiet_ret|apply quiet_log]|intros _].
  apply quiet_bind;
    [destruct (ex_api_key ex); quiet_steps|intros _].
  apply quiet_bind;
    [destruct (ex_api_secret ex); quiet_steps|intros _].
  apply quiet_bind; [apply quiet_get_unsupported_symbols|intros unsupported].
  destruct unsupported.
  - apply quiet_bind;
      [destruct (reset_cache cfg);
       [apply quiet_ret|apply quiet_get_orders]|intros orders].
    do 4 (apply quiet_bind; [apply quiet_log|intros _]).
    apply quiet_bind; [|intros _; apply quiet_ret].
    destruct (map_to_list orders); [apply quiet_ret|].
    apply quiet_bind; [apply quiet_log|intros _; apply quiet_log_holdings].
  - apply quiet_bind; [apply quiet_log|intros _; apply quiet_raise].
Qed.

Section NoOrderSucceeds.

Variable cfg : Config.
Variable ex : env.
Hypothesis no_success :
  forall n symbol price amount dry,
    exists e, ex_place_order ex n symbol price amount dry = Raise e.

Lemma quiet_loop_body orders item : quiet (loop_body cfg ex orders item).
Proof.
  destruct item as [symbol ticker]. intros w. rewrite loop_body_run.
  destruct (decide _ _ _ _ _) as [d|e];
    [|exists []; rewrite after_nil; split; reflexivity].
  destruct (triggers d); [|eexists; split; reflexivity].
  cbn zeta.
  destruct (no_success (length (w_trace w)) symbol (t_last ticker)
              (amount_usd cfg) (dry_run cfg)) as [e ->].
  destruct e; try (eexists; split; reflexivity).
  destruct (ex_requests_get _ _ _); [|eexists; split; reflexivity].
  destruct (pynum_mul_int _ _) as [seconds|e];
    [|eexists; split; reflexivity].
  destruct (sleep_check _ seconds); [|eexists; split; reflexivity].
  rewrite after_after. eexists; split; reflexivity.
Qed.

Lemma quiet_for_each_ticker items :
  forall orders, quiet (for_each_ticker cfg ex items orders).
Proof.
  induction items as [|item rest IH]; intros orders; cbn [for_each_ticker].
  - apply quiet_ret.
  - apply quiet_bind; [apply quiet_loop_body|intros orders'; apply IH].
Qed.

Lemma quiet_polling_loop cycles :
  forall syms orders, quiet (polling_loop cycles cfg ex syms orders).
Proof.
  induction cycles as [|cycles IH]; intros syms orders; cbn [polling_loop].
  - apply quiet_ret.
  - apply quiet_bind; [apply quiet_fetch_tickers|intros items].
    apply quiet_bind; [apply quiet_for_each_ticker|intros orders'].
    apply quiet_bind; [apply quiet_log|intros _].
    apply quiet_bind; [apply quiet_sleep|intros _]. apply IH.
Qed.

Lemma quiet_main_once cycles : quiet (main_once cycles cfg ex).
Proof.
  unfold main_once.
  apply quiet_bind; [apply quiet_startup|intros so].
  apply quiet_polling_loop.
Qed.

End NoOrderSucceeds.

Lemma quiet_retry_internal {A} (f : M A) backoff :
  quiet f -> forall tries delay, quiet (retry_internal f tries delay backoff).
Proof.
  intros Hf tries. induction tries as [|tries IH]; intros delay.
  - apply quiet_ret.
  - intros w. cbn [retry_internal].
    destruct (Hf w) as (l1 & E1 & S1).
    destruct (f w) as [[a|e] w1]; cbn [snd] in E1; subst w1.
    + exists l1. split; [reflexivity|assumption].
    + destruct (caught e); [|exists l1; split; [reflexivity|assumption]].
      destruct tries as [|tries'];
        [exists l1; split; [reflexivity|assumption]|].
      assert (Hk : quiet
        (let* _ := log WARNING (MsgRetrying e delay) in
         let* _ := sleep (PyInt delay) in
         retry_internal f (S tries') (delay * backoff) backoff)).
      { apply quiet_bind; [apply quiet_log|intros _].
        apply quiet_bind; [apply quiet_sleep|intros _]. apply IH. }
      destruct (Hk (after w l1)) as (l2 & E2 & S2).
      exists (l1 ++ l2)%list. rewrite E2, after_after.
      split; [reflexivity|]. apply no_save_app; assumption.
Qed.

Lemma new_events_same w : new_events w w = [].
Proof. unfold new_events. apply drop_all. Qed.

Lemma loop_body_cases cfg ex orders symbol ticker w :
  (exists d order,
      decide (clock_at ex w) cfg orders symbol ticker = Ok d
      /\ triggers d = true
      /\ ex_place_order ex (length (w_trace w)) symbol (t_last ticker)
                        (amount_usd cfg) (dry_run cfg) = Ok order)
  \/ (exists r evs,
        loop_body cfg ex orders (symbol, ticker) w = (r, after w evs)
        /\ existsb is_save evs = false
        /\ forall o, r = Ok o -> o = orders).
Proof.
  rewrite loop_body_run.
  destruct (decide _ _ _ _ _) as [d|e].
  2:{ right. exists (Raise e), []. rewrite after_nil.
      repeat split; intros; discriminate. }
  destruct (triggers d) eqn:Ht.
  2:{ right. eexists _, _. split; [reflexivity|]. split; [reflexivity|].
      intros o [= <-]. reflexivity. }
  cbn zeta.
  destruct (ex_place_order _ _ _ _ _ _) as [order|e] eqn:Hp.
  { left. exists d, order. repeat split; assumption. }
  right.
  destruct e;
    try (eexists _, _; split; [reflexivity|]; split; [reflexivity|];
         intros; discriminate).
  destruct (ex_requests_get _ _ _);
    [|eexists _, _; split; [reflexivity|]; split; [reflexivity|];
      intros; discriminate].
  destruct (pynum_mul_int _ _) as [seconds|e];
    [|eexists _, _; split; [reflexivity|]; split; [reflexivity|];
      intros; discriminate].
  destruct (sleep_check _ seconds);
    [|eexists _, _; split; [reflexivity|]; split; [reflexivity|];
      intros; discriminate].
  rewrite after_after. eexists _, _. split; [reflexivity|].
  split; [reflexivity|]. intros o [= <-]. reflexivity.
Qed.

(** C7: the store is written exactly when an order succeeds.  In a round
    whose order succeeds, the record returned replaces the one of the
    symbol in the mapping (the other symbols keep theirs), [save] is the
    very next thing done and stores the whole mapping, and nothing else
    of the round saves.  In a round without a successful order neither
    the mapping nor the store changes and nothing is saved.  And over a
    whole run of the decorated [main] in which no order succeeds the store
    stays as it was: no other code writes it. *)
Theorem purchase_record_lifecycle cfg ex orders symbol ticker w :
  let run := loop_body cfg ex orders (symbol, ticker) w in
  let placed := EvPlaceOrder symbol (t_last ticker) (amount_usd cfg)
                             (dry_run cfg) in
  let succeeds order :=
    exists d,
      decide (clock_at ex w) cfg orders symbol ticker = Ok d
      /\ triggers d = true
      /\ ex_place_order ex (length (w_trace w)) symbol (t_last ticker)
                        (amount_usd cfg) (dry_run cfg) = Ok order in
  (forall order, succeeds order ->
     let orders' := <[symbol := order]> orders in
     w_db (snd run) = orders'
     /\ (exists rest,
           new_events w (snd run) = placed :: EvSave orders' :: rest
           /\ existsb is_save rest = false)
     /\ (forall o, fst run = Ok o -> o = orders')
     /\ orders' !! symbol = Some order
     /\ (forall s, s <> symbol -> orders' !! s = orders !! s))
  /\ ((forall order, ~ succeeds order) ->
      w_db (snd run) = w_db w
      /\ existsb is_save (new_events w (snd run)) = false
      /\ (forall o, fst run = Ok o -> o = orders))
  /\ (forall cycles,
        (forall n s price amount dry,
            exists e, ex_place_order ex n s price amount dry = Raise e) ->
        quiet (main cycles cfg ex)).
Proof.
  intros run placed succeeds. split; [|split].
  - intros order (d & Hd & Ht & Hp) orders'. subst run.
    rewrite loop_body_run, Hd, Ht. cbn zeta. rewrite Hp. cbn [fst snd w_db].
    split; [reflexivity|]. split.
    { eexists. unfold new_events. cbn [w_trace]. rewrite drop_app_length.
      split; [reflexivity|]. reflexivity. }
    split.
    { intros o. destruct (ex_requests_get _ _ _); [|discriminate].
      intros [= <-]. reflexivity. }
    split; [apply lookup_insert_eq|].
    intros s Hs. apply lookup_insert_ne. congruence.
  - intros Hnone. subst run.
    destruct (loop_body_cases cfg ex orders symbol ticker w)
      as [(d & order & Hd & Ht & Hp)|(r & evs & -> & Hs & Ho)].
    { exfalso. apply (Hnone order). exists d. repeat split; assumption. }
    cbn [fst snd]. rewrite new_events_after.
    split; [reflexivity|]. split; assumption.
  - intros cycles Hno. unfold main.
    apply quiet_retry_internal. apply quiet_main_once. exact Hno.
Qed.

(** Never bought, 24h percentage -8, an order that succeeds: the store
    holds the new record, and holds it alone. *)
Lemma purchase_record_lifecycle_witness :
  let record := sample_order (PyInt 1700036000000) in
  let ex := sample_env (fun _ => Ok []) (Ok record) (Response 200) in
  let item := ("BTC/USDT", {| t_last := 29000; t_percentage := -8 |}) in
  w_db (snd (loop_body sample_cfg ex no_orders item (sample_world no_orders)))
  = <["BTC/USDT" := record]> no_orders.
Proof.
  refine (proj1 (proj1 (purchase_record_lifecycle sample_cfg
    (sample_env (fun _ => Ok []) (Ok (sample_order (PyInt 1700036000000)))
                (Response 200))
    no_orders "BTC/USDT" {| t_last := 29000; t_percentage := -8 |}
    (sample_world no_orders)) (sample_order (PyInt 1700036000000)) _)).
  eexists. split; [|split]; vm_compute; reflexivity.
Defined.

(** ** Timestamps and the day window *)

(** C4: a timestamp whose [str] has no ['.'] is divided by 1000 before it
    is converted (it is read as milliseconds), one whose [str] has a ['.']
    is converted as it is (it is read as seconds).  Every int is of the
    first kind; 1700000000 becomes 1700000.0 seconds and 1700000000.5
    stays as it is. *)
Theorem timestamp_normalisation te symbol orders order :
  orders !! symbol = Some order ->
  let timestamp := o_timestamp order in
  let verdict seconds :=
    rbind (fromtimestamp te seconds) (fun bought_on =>
    Ok (timedelta_days (datetime_now te - bought_on) <=? 1)) in
  (str_contains "." (py_str timestamp) = false ->
   bought_less_than_24h_ago te symbol orders =
     rbind (pynum_div_int timestamp 1000) (fun s => verdict (PyFloat s)))
  /\ (str_contains "." (py_str timestamp) = true ->
      bought_less_than_24h_ago te symbol orders = verdict timestamp)
  /\ (forall z, timestamp = PyInt z ->
      bought_less_than_24h_ago te symbol orders =
        rbind (int_truediv z 1000) (fun s => verdict (PyFloat s)))
  /\ py_str (PyInt 1700000000) = "1700000000"
  /\ normalise_timestamp (PyInt 1700000000) = Ok (PyFloat 1700000)
  /\ py_str (PyFloat 1700000000.5) = "1700000000.5"
  /\ normalise_timestamp (PyFloat 1700000000.5) = Ok (PyFloat 1700000000.5).
Proof.
  intros Hin timestamp verdict.
  rewrite (bought_less_than_24h_ago_unfold _ _ _ _ Hin).
  fold timestamp. unfold normalise_timestamp.
  split; [|split; [|split]].
  - intros ->. cbn [negb].
    destruct (pynum_div_int timestamp 1000); reflexivity.
  - intros ->. reflexivity.
  - intros z ->. cbn [py_str]. rewrite str_of_Z_no_dot. cbn [negb].
    cbn [pynum_div_int]. destruct (int_truediv z 1000); reflexivity.
  - repeat split; vm_compute; reflexivity.
Qed.

(** An hour after the instant 1700000000 s: the int 1700000000 is taken
    for a moment of January 1970 and is out of the window, the float
    1700000000.5 is taken for half a second later than that instant and is
    in it. *)
Lemma timestamp_normalisation_witness :
  bought_less_than_24h_ago (sample_time 1700003600) "BTC/USDT"
                           (sample_orders (PyInt 1700000000)) = Ok false
  /\ bought_less_than_24h_ago (sample_time 1700003600) "BTC/USDT"
                              (sample_orders (PyFloat 1700000000.5)) = Ok true.
Proof.
  split.
  - rewrite (proj1 (proj2 (proj2 (timestamp_normalisation
      (sample_time 1700003600) "BTC/USDT" (sample_orders (PyInt 1700000000))
      (sample_order (PyInt 1700000000)) ltac:(vm_compute; reflexivity))))
      1700000000 eq_refl).
    vm_compute. reflexivity.
  - rewrite (proj1 (proj2 (timestamp_normalisation
      (sample_time 1700003600) "BTC/USDT"
      (sample_orders (PyFloat 1700000000.5))
      (sample_order (PyFloat 1700000000.5)) ltac:(vm_compute; reflexivity)))
      ltac:(vm_compute; reflexivity)).
    vm_compute. reflexivity.
Defined.

Lemma fromtimestamp_timeval te timestamp bought_on :
  fromtimestamp te timestamp = Ok bought_on ->
  exists sec us,
    timestamp_to_timeval timestamp = Ok (sec, us)
    /\ bought_on = localtime te sec us.
Proof.
  unfold fromtimestamp.
  destruct (timestamp_to_timeval timestamp) as [[sec us]|e];
    cbn [rbind]; [|discriminate].
  destruct (_ && _); [|discriminate].
  intros [= <-]. exists sec, us. split; reflexivity.
Qed.

(** C10: the function answers [True] exactly when the days of
    [now - bought_on] are at most 1, that is when less than 48 hours lie
    between the two wall-clock times (a buy stamped in the future
    included); where the offset of local time is the same at both
    instants these are the hours elapsed; such a symbol is decided by the
    buy-again rule, with the first-time flag off. *)
Theorem day_window_is_two_days te symbol orders order timestamp bought_on :
  orders !! symbol = Some order ->
  normalise_timestamp (o_timestamp order) = Ok timestamp ->
  fromtimestamp te timestamp = Ok bought_on ->
  let diff := datetime_now te - bought_on in
  bought_less_than_24h_ago te symbol orders = Ok (timedelta_days diff <=? 1)
  /\ (bought_less_than_24h_ago te symbol orders = Ok true
      <-> diff < 48 * 3600 * us_per_second)
  /\ (exists sec us,
        timestamp_to_timeval timestamp = Ok (sec, us)
        /\ (te_utcoffset te (te_now te / us_per_second) = te_utcoffset te sec
            -> diff = te_now te - (sec * us_per_second + us)))
  /\ (diff < 48 * 3600 * us_per_second ->
      forall cfg ticker,
        (o_price order =? 0)%float = false ->
        let pct := ((t_last ticker / o_price order - 1) * 100)%float in
        decide te cfg orders symbol ticker =
          Ok {| buy_first_time := false;
                buy_again := (pct <? - min_additional_drop cfg)%float;
                discount_pct := Some pct |}).
Proof.
  intros Hin Hts Hconv diff.
  assert (Hrun : bought_less_than_24h_ago te symbol orders =
                 Ok (timedelta_days diff <=? 1)).
  { rewrite (bought_less_than_24h_ago_unfold _ _ _ _ Hin), Hts.
    cbn [rbind]. rewrite Hconv. reflexivity. }
  assert (Hiff : bought_less_than_24h_ago te symbol orders = Ok true
                 <-> diff < 48 * 3600 * us_per_second).
  { rewrite Hrun.
    replace (48 * 3600 * us_per_second) with (2 * us_per_day)
      by (unfold us_per_day; lia).
    rewrite <- timedelta_days_le_1.
    split; [intros [= ->]; reflexivity|intros ->; reflexivity]. }
  split; [exact Hrun|]. split; [exact Hiff|]. split.
  - destruct (fromtimestamp_timeval _ _ _ Hconv) as (sec & us & Htv & ->).
    exists sec, us. split; [exact Htv|].
    intros Hoff. unfold diff, datetime_now, localtime. rewrite Hoff.
    pose proof (Z.div_mod (te_now te) us_per_second ltac:(discriminate)).
    lia.
  - intros Hlt cfg ticker Hprice pct.
    rewrite (decide_recent _ _ _ _ _ _ Hin (proj2 Hiff Hlt)).
    unfold float_truediv. rewrite Hprice. reflexivity.
Qed.

(** Bought 47 hours ago: within the window; bought 48 hours ago: out of
    it. *)
Lemma day_window_is_two_days_witness :
  bought_less_than_24h_ago (sample_time (1700000000 + 47 * 3600)) "BTC/USDT"
                           (sample_orders (PyInt 1700000000000)) = Ok true
  /\ bought_less_than_24h_ago (sample_time (1700000000 + 48 * 3600))
                              "BTC/USDT"
                              (sample_orders (PyInt 1700000000000)) = Ok false.
Proof.
  split.
  - rewrite (proj1 (day_window_is_two_days
      (sample_time (1700000000 + 47 * 3600)) "BTC/USDT"
      (sample_orders (PyInt 1700000000000))
      (sample_order (PyInt 1700000000000))
      (PyFloat 1700000000) (1700000000 * us_per_second)
      ltac:(vm_compute; reflexivity) ltac:(vm_compute; reflexivity)
      ltac:(vm_compute; reflexivity))).
    vm_compute. reflexivity.
  - rewrite (proj1 (day_window_is_two_days
      (sample_time (1700000000 + 48 * 3600)) "BTC/USDT"
      (sample_orders (PyInt 1700000000000))
      (sample_order (PyInt 1700000000000))
      (PyFloat 1700000000) (1700000000 * us_per_second)
      ltac:(vm_compute; reflexivity) ltac:(vm_compute; reflexivity)
      ltac:(vm_compute; reflexivity))).
    vm_compute. reflexivity.
Defined.

(** ** The retry decorator *)

Lemma count_app p l1 l2 :
  count p (l1 ++ l2) = (count p l1 + count p l2)%nat.
Proof.
  induction l1 as [|ev l1 IH]; cbn [app count]; [reflexivity|].
  rewrite IH. lia.
Qed.

Lemma sleeps_app l1 l2 : sleeps (l1 ++ l2) = (sleeps l1 ++ sleeps l2)%list.
Proof.
  induction l1 as [|ev l1 IH]; cbn [app sleeps]; [reflexivity|].
  destruct ev; cbn [app]; rewrite IH; reflexivity.
Qed.

Lemma holdings_events_summary items :
  count is_fetch (holdings_events items) = O
  /\ count is_session_start (holdings_events items) = O
  /\ sleeps (holdings_events items) = [].
Proof.
  induction items as [|kv rest (IH1 & IH2 & IH3)]; [repeat split|].
  cbn [holdings_events map count sleeps is_fetch is_session_start].
  fold (holdings_events rest). rewrite IH1, IH2, IH3. repeat split.
Qed.

Lemma startup_events_summary cfg ex db :
  count is_fetch (startup_events cfg ex db) = O
  /\ count is_session_start (startup_events cfg ex db) = 1%nat
  /\ sleeps (startup_events cfg ex db) = [].
Proof.
  unfold startup_events.
  destruct (holdings_events_summary
              (map_to_list (if reset_cache cfg then ∅ else db)))
    as (H1 & H2 & H3).
  destruct (ex_api_key ex), (ex_api_secret ex), (reset_cache cfg);
    destruct (map_to_list _) as [|kv items];
    cbn [app count sleeps is_fetch is_session_start] in *;
    rewrite ?H1, ?H2, ?H3; repeat split.
Qed.

Lemma log_holdings_run items w :
  log_holdings items w = (Ok tt, after w (holdings_events items)).
Proof.
  revert w. induction items as [|[key value] rest IH]; intros w.
  - cbn. rewrite after_nil. reflexivity.
  - cbn [log_holdings holdings_events map]. run. rewrite emit_after.
    rewrite IH, after_after. reflexivity.
Qed.

Section Startup.

Variable cfg : Config.
Variable ex : env.
Hypothesis all_supported :
  forall n syms, ex_get_unsupported_symbols ex n syms = Ok [].

Lemma startup_run w :
  startup cfg ex w =
    (Ok (tracked_symbols cfg, if reset_cache cfg then ∅ else w_db w),
     after w (startup_events cfg ex (w_db w))).
Proof.
  unfold startup, startup_events. run. rewrite emit_after.
  destruct (ex_api_key ex) as [key|], (ex_api_secret ex) as [secret|];
    run; rewrite ?emit_after, ?after_after;
    rewrite get_unsupported_symbols_run, all_supported;
    destruct (reset_cache cfg); unfold get_orders; run;
    rewrite ?emit_after, ?after_after; cbn [w_db after];
    destruct (map_to_list _) as [|kv items]; run;
    rewrite ?emit_after, ?log_holdings_run, ?after_after;
    cbn [app]; reflexivity.
Qed.

Lemma main_once_fetch_fails cycles w e :
  ex_fetch_tickers ex
    (length (w_trace w) + length (startup_events cfg ex (w_db w)))
    (tracked_symbols cfg) = Raise e ->
  main_once (S cycles) cfg ex w =
    (Raise e,
     after w (startup_events cfg ex (w_db w)
              ++ [EvFetchTickers (tracked_symbols cfg)])).
Proof.
  intros Hfetch. unfold main_once. unfold bind at 1. rewrite startup_run.
  cbn [polling_loop fst snd]. unfold bind at 1.
  rewrite fetch_tickers_run, length_after, Hfetch, after_after.
  reflexivity.
Qed.

End Startup.

Lemma monotonic_bounds w : 0 <= monotonic w <= 2 ^ 62.
Proof. unfold monotonic. lia. Qed.

(** A whole number of seconds up to 146 years is a length every host
    accepts. *)
Lemma sleep_check_int w delay :
  0 <= delay -> delay * 10 ^ 9 < 2 ^ 62 ->
  sleep_check (monotonic w) (PyInt delay) = Ok tt.
Proof.
  intros H0 H1. pose proof (monotonic_bounds w) as Hnow.
  unfold sleep_check, sleep_timeout. cbn zeta.
  replace (- 2 ^ 63 <=? delay * 10 ^ 9) with true by (symmetry; apply Z.leb_le; lia).
  replace (delay * 10 ^ 9 <? 2 ^ 63) with true by (symmetry; apply Z.ltb_lt; lia).
  replace (delay * 10 ^ 9 <? 0) with false by (symmetry; apply Z.ltb_ge; lia).
  cbn [andb negb rbind].
  replace (monotonic w + delay * 10 ^ 9 <? 2 ^ 63) with true
    by (symmetry; apply Z.ltb_lt; lia).
  reflexivity.
Qed.

(** A function that fails each time it is called, adding the same events,
    is called [tries] times and no more. *)
Lemma retry_internal_all_fail {A} (f : M A) (attempt : list event) db :
  (forall w, w_db w = db ->
     exists e, caught e = true /\ f w = (Raise e, after w attempt)) ->
  forall tries delay w,
    w_db w = db ->
    0 <= delay -> delay * 2 ^ Z.of_nat tries * 10 ^ 9 < 2 ^ 62 ->
    exists errors e,
      retry_internal f (S tries) delay 2 w =
        (Raise e, after w (retry_events attempt errors delay))
      /\ caught e = true
      /\ length errors = tries.
Proof.
  intros Hf tries. induction tries as [|tries IH]; intros delay w Hdb H0 Hmax.
  - destruct (Hf w Hdb) as (e & He & Hrun).
    exists [], e. cbn [retry_internal retry_events]. rewrite Hrun, He.
    repeat split.
  - destruct (Hf w Hdb) as (e & He & Hrun).
    assert (Hpow : 2 ^ Z.of_nat (S tries) = 2 * 2 ^ Z.of_nat tries).
    { rewrite Nat2Z.inj_succ, Z.pow_succ_r by lia. reflexivity. }
    assert (Hpos : 0 < 2 ^ Z.of_nat tries) by (apply Z.pow_pos_nonneg; lia).
    destruct (IH (delay * 2) (after (after w attempt)
                [EvLog WARNING (MsgRetrying e delay); EvSleep (PyInt delay)]))
      as (errors & e' & Hrest & He' & Hlen); [exact Hdb|lia|nia|].
    exists (e :: errors), e'.
    split; [|split; [exact He'|cbn [length]; congruence]].
    remember (S tries) as n eqn:Hn. cbn [retry_internal]. rewrite Hrun, He.
    subst n. run. rewrite emit_after, sleep_run.
    rewrite sleep_check_int by nia.
    rewrite after_after. cbn [app]. rewrite Hrest.
    rewrite !after_after. reflexivity.
Qed.

Lemma retry_events_count p attempt errors :
  (forall e delay, p (EvLog WARNING (MsgRetrying e delay)) = false) ->
  (forall seconds, p (EvSleep seconds) = false) ->
  forall delay,
    count p (retry_events attempt errors delay)
    = (S (length errors) * count p attempt)%nat.
Proof.
  intros Hlog Hsleep. induction errors as [|e rest IH]; intros delay.
  - cbn [retry_events length]. lia.
  - cbn [retry_events length]. rewrite !count_app, IH.
    cbn [count]. rewrite Hlog, Hsleep. lia.
Qed.

Lemma retry_events_sleeps attempt errors :
  sleeps attempt = [] ->
  forall delay,
    sleeps (retry_events attempt errors delay)
    = map PyInt (backoff_delays delay (length errors)).
Proof.
  intros Hnone. induction errors as [|e rest IH]; intros delay.
  - cbn [retry_events length backoff_delays map]. exact Hnone.
  - cbn [retry_events length backoff_delays map].
    rewrite !sleeps_app, Hnone, IH. reflexivity.
Qed.

Lemma retry_internal_not_caught {A} (f : M A) tries delay backoff w e w' :
  f w = (Raise e, w') -> caught e = false ->
  retry_internal f (S tries) delay backoff w = (Raise e, w').
Proof. intros Hrun He. cbn [retry_internal]. rewrite Hrun, He. reflexivity. Qed.

(** Session starts are counted through the whole program. *)

Lemma starts_ret {A} (a : A) : starts_at_most 0 (ret a).
Proof. intros w. exists []. rewrite app_nil_r. split; [reflexivity|cbn; lia]. Qed.

Lemma starts_raise {A} e : starts_at_most 0 (@raise A e).
Proof. intros w. exists []. rewrite app_nil_r. split; [reflexivity|cbn; lia]. Qed.

Lemma starts_lift {A} (r : result A) : starts_at_most 0 (lift r).
Proof. intros w. exists []. rewrite app_nil_r. split; [reflexivity|cbn; lia]. Qed.

Lemma starts_position : starts_at_most 0 position.
Proof. intros w. exists []. rewrite app_nil_r. split; [reflexivity|cbn; lia]. Qed.

Lemma starts_emit ev : is_session_start ev = false -> starts_at_most 0 (emit ev).
Proof.
  intros H w. exists [ev]. split; [reflexivity|].
  cbn [count]. rewrite H. lia.
Qed.

Lemma starts_bind {A B} a b (m : M A) (k : A -> M B) :
  starts_at_most a m -> (forall x, starts_at_most b (k x)) ->
  starts_at_most (a + b) (bind m k).
Proof.
  intros Hm Hk w. unfold bind.
  destruct (Hm w) as (l1 & E1 & S1).
  destruct (m w) as [[x|e] w1]; cbn [snd] in E1.
  - destruct (Hk x w1) as (l2 & E2 & S2).
    exists (l1 ++ l2)%list. rewrite E2, E1, app_assoc, count_app.
    split; [reflexivity|lia].
  - exists l1. cbn [snd]. split; [exact E1|lia].
Qed.

Lemma starts_weaken {A} a b (m : M A) :
  (a <= b)%nat -> starts_at_most a m -> starts_at_most b m.
Proof.
  intros Hab Hm w. destruct (Hm w) as (l & E & S).
  exists l. split; [exact E|lia].
Qed.

Lemma starts_bind0 {A B} (m : M A) (k : A -> M B) :
  starts_at_most 0 m -> (forall x, starts_at_most 0 (k x)) ->
  starts_at_most 0 (bind m k).
Proof. intros Hm Hk. apply (starts_bind 0 0); assumption. Qed.

Ltac starts_steps :=
  repeat first
    [ apply starts_ret | apply starts_raise | apply starts_lift
    | apply starts_position
    | apply starts_emit; reflexivity
    | apply starts_bind0; [|intros ?] ].

Lemma starts_loop_body cfg ex orders item :
  starts_at_most 0 (loop_body cfg ex orders item).
Proof.
  destruct item as [symbol ticker]. intros w. rewrite loop_body_run.
  destruct (decide _ _ _ _ _) as [d|e];
    [|exists []; rewrite app_nil_r; split; [reflexivity|cbn; lia]].
  destruct (triggers d); [|eexists; split; [reflexivity|cbn; lia]].
  cbn zeta.
  destruct (ex_place_order _ _ _ _ _ _) as [order|e].
  { destruct (buy_again d), (discount_pct d);
      eexists; (split; [reflexivity|cbn; lia]). }
  destruct e; try (eexists; split; [reflexivity|cbn; lia]).
  destruct (ex_requests_get _ _ _);
    [|eexists; split; [reflexivity|cbn; lia]].
  destruct (pynum_mul_int _ _) as [seconds|e];
    [|eexists; split; [reflexivity|cbn; lia]].
  destruct (sleep_check _ seconds);
    [|eexists; split; [reflexivity|cbn; lia]].
  rewrite after_after. eexists; split; [reflexivity|cbn; lia].
Qed.

Lemma starts_for_each_ticker cfg ex items :
  forall orders, starts_at_most 0 (for_each_ticker cfg ex items orders).
Proof.
  induction items as [|item rest IH]; intros orders; cbn [for_each_ticker].
  - apply starts_ret.
  - apply starts_bind0; [apply starts_loop_body|intros orders'; apply IH].
Qed.

Lemma starts_polling_loop cfg ex cycles :
  forall syms orders, starts_at_most 0 (polling_loop cycles cfg ex syms orders).
Proof.
  induction cycles as [|cycles IH]; intros syms orders; cbn [polling_loop].
  - apply starts_ret.
  - unfold fetch_tickers, log, sleep.
    apply starts_bind0; [starts_steps|intros items].
    apply starts_bind0; [apply starts_for_each_ticker|intros orders'].
    apply starts_bind0; [starts_steps|intros _].
    apply starts_bind0; [starts_steps|intros _]. apply IH.
Qed.

Lemma starts_log_holdings items : starts_at_most 0 (log_holdings items).
Proof.
  induction items as [|[key value] rest IH]; cbn [log_holdings].
  - apply starts_ret.
  - apply starts_bind0; [unfold log; starts_steps|intros _; exact IH].
Qed.

Lemma starts_main_once cycles cfg ex :
  starts_at_most 1 (main_once cycles cfg ex).
Proof.
  unfold main_once. apply (starts_bind 1 0); [|intros so; apply starts_polling_loop].
  unfold startup.
  apply (starts_bind 1 0).
  { intros w. eexists. split; [reflexivity|cbn; lia]. }
  intros _. unfold log, get_unsupported_symbols, get_orders.
  apply starts_bind0;
    [destruct (ex_api_key ex), (ex_api_secret ex); starts_steps|intros _].
  apply starts_bind0; [destruct (ex_api_key ex); starts_steps|intros _].
  apply starts_bind0; [destruct (ex_api_secret ex); starts_steps|intros _].
  apply starts_bind0; [starts_steps|intros unsupported].
  destruct unsupported; [|starts_steps].
  apply starts_bind0.
  { destruct (reset_cache cfg); starts_steps. }
  intros orders. do 4 (apply starts_bind0; [starts_steps|intros _]).
  apply starts_bind0; [|intros _; apply starts_ret].
  destruct (map_to_list orders); [apply starts_ret|].
  apply starts_bind0; [starts_steps|intros _; apply starts_log_holdings].
Qed.

Lemma starts_retry_internal {A} (f : M A) backoff :
  starts_at_most 1 f ->
  forall tries delay,
    starts_at_most tries (retry_internal f tries delay backoff).
Proof.
  intros Hf tries. induction tries as [|tries IH]; intros delay.
  - apply starts_ret.
  - intros w. cbn [retry_internal].
    destruct (Hf w) as (l1 & E1 & S1).
    destruct (f w) as [[a|e] w1]; cbn [snd] in E1.
    + exists l1. split; [exact E1|lia].
    + destruct (caught e); [|exists l1; split; [exact E1|lia]].
      destruct tries as [|tries']; [exists l1; split; [exact E1|lia]|].
      assert (Hk : starts_at_most (S tries')
        (let* _ := log WARNING (MsgRetrying e delay) in
         let* _ := sleep (PyInt delay) in
         retry_internal f (S tries') (delay * backoff) backoff)).
      { unfold log, sleep.
        apply (starts_bind 0); [starts_steps|intros _].
        apply (starts_bind 0); [starts_steps|intros _]. apply IH. }
      destruct (Hk w1) as (l2 & E2 & S2).
      exists (l1 ++ l2)%list. rewrite E2, E1, app_assoc, count_app.
      split; [reflexivity|lia].
Qed.

(** C8, as stated: "only the cycle fetch is retried".  A run in which the
    first fetch fails with [NetworkError] and the second succeeds: after
    the announcement of the retry and its sleep the program does not go
    back to the fetch, it starts a second session: the whole of [main] is
    run again. *)
Lemma whole_main_is_retried :
  let ex := sample_env (fun n => if (n <? 10)%nat then Raise NetworkError
                                 else Ok [])
                       (Raise InsufficientFunds) (Response 200) in
  let trace := w_trace (snd (main 1 sample_cfg ex (sample_world no_orders))) in
  retry_resumes_at_fetch trace = false
  /\ count is_fetch trace = 2%nat
  /\ count is_session_start trace = 2%nat
  /\ count (fun ev => match ev with EvGetOrders => true | _ => false end)
            trace = 2%nat.
Proof. vm_compute. repeat split. Qed.

(** C8, amended: an error the decorator catches ([NetworkError],
    [RequestTimeout]), wherever in [main] it is raised, makes the
    decorator log it, sleep and call [main] again from its first line; an
    error it does not catch ends the run at once.  No run of the
    program starts more than 8 sessions.  When every fetch of the tickers
    fails with such an error, [main] is run 8 times in all
    (8 session starts, 8 fetches), the sleeps between the runs are 15, 30,
    60, 120, 240, 480 and 960 seconds, and the error of the eighth run
    ends the program. *)
Theorem retry_reruns_main cfg ex cycles w :
  (count is_session_start
         (new_events w (snd (main (S cycles) cfg ex w))) <= 8)%nat
  /\ ((forall n syms, ex_get_unsupported_symbols ex n syms = Ok []) ->
      (forall n syms, exists e,
          ex_fetch_tickers ex n syms = Raise e /\ caught e = true) ->
      exists errors e,
        let evs :=
          retry_events (startup_events cfg ex (w_db w)
                        ++ [EvFetchTickers (tracked_symbols cfg)])
                       errors 15 in
        main (S cycles) cfg ex w = (Raise e, after w evs)
        /\ caught e = true
        /\ length errors = 7%nat
        /\ count is_session_start evs = 8%nat
        /\ count is_fetch evs = 8%nat
        /\ sleeps evs = map PyInt [15; 30; 60; 120; 240; 480; 960])
  /\ (forall e w',
        main_once (S cycles) cfg ex w = (Raise e, w') ->
        caught e = true ->
        main (S cycles) cfg ex w =
          (let* _ := log WARNING (MsgRetrying e 15) in
           let* _ := sleep (PyInt 15) in
           retry_internal (main_once (S cycles) cfg ex) 7 30 2) w')
  /\ (forall e w',
        main_once (S cycles) cfg ex w = (Raise e, w') ->
        caught e = false ->
        main (S cycles) cfg ex w = (Raise e, w')).
Proof.
  split; [|split; [|split]].
  - destruct (starts_retry_internal (main_once (S cycles) cfg ex) 2
                (starts_main_once (S cycles) cfg ex) 8%nat 15 w)
      as (evs & E & Hle).
    unfold main, new_events. rewrite E, drop_app_length. exact Hle.
  - intros Hsup Hfetch.
    set (attempt := (startup_events cfg ex (w_db w)
                     ++ [EvFetchTickers (tracked_symbols cfg)])%list).
    destruct (retry_internal_all_fail (main_once (S cycles) cfg ex)
                attempt (w_db w)) with (tries := 7%nat) (delay := 15) (w := w)
      as (errors & e & Hrun & He & Hlen).
    { intros w0 Hdb.
      destruct (Hfetch (length (w_trace w0)
                        + length (startup_events cfg ex (w_db w0)))%nat
                       (tracked_symbols cfg)) as (e & Hf & He).
      exists e. split; [exact He|].
      rewrite (main_once_fetch_fails cfg ex Hsup cycles w0 e Hf), Hdb.
      reflexivity. }
    { reflexivity. }
    { lia. }
    { vm_compute. reflexivity. }
    exists errors, e. cbn zeta. fold attempt.
    destruct (startup_events_summary cfg ex (w_db w)) as (S1 & S2 & S3).
    split; [exact Hrun|]. split; [exact He|]. split; [exact Hlen|].
    split; [|split].
    + rewrite retry_events_count by reflexivity. rewrite Hlen.
      unfold attempt. rewrite count_app, S2. reflexivity.
    + rewrite retry_events_count by reflexivity. rewrite Hlen.
      unfold attempt. rewrite count_app, S1. reflexivity.
    + rewrite retry_events_sleeps, Hlen; [reflexivity|].
      unfold attempt. rewrite sleeps_app, S3. reflexivity.
  - intros e w' Hrun He. unfold main.
    cbn [retry_internal]. rewrite Hrun, He. reflexivity.
  - intros e w' Hrun He. unfold main.
    apply retry_internal_not_caught; assumption.
Qed.

(** An exchange that cannot be reached: eight runs of [main], then the
    error. *)
Lemma retry_reruns_main_witness :
  let ex := sample_env (fun _ => Raise NetworkError)
                       (Raise InsufficientFunds) (Response 200) in
  exists errors e,
    let evs :=
      retry_events (startup_events sample_cfg ex no_orders
                    ++ [EvFetchTickers (tracked_symbols sample_cfg)])
                   errors 15 in
    main 1 sample_cfg ex (sample_world no_orders)
      = (Raise e, after (sample_world no_orders) evs)
    /\ caught e = true
    /\ length errors = 7%nat
    /\ count is_session_start evs = 8%nat
    /\ count is_fetch evs = 8%nat
    /\ sleeps evs = map PyInt [15; 30; 60; 120; 240; 480; 960].
Proof.
  refine (proj1 (proj2 (retry_reruns_main sample_cfg
    (sample_env (fun _ => Raise NetworkError) (Raise InsufficientFunds)
                (Response 200))
    O (sample_world no_orders))) _ _).
  - intros n syms. reflexivity.
  - intros n syms. exists NetworkError. split; reflexivity.
Defined.

(** ** The notifier *)

(** C9, as stated: "a failure of the delivery channel is not surfaced".
    When the request to Telegram fails to connect, [send_msg] raises to
    its caller, and a run of the decorated [main] in which a buy is due
    ends with that exception: on the way of the insufficient funds, and on
    the way of a successful buy after the record was saved. *)
Lemma send_msg_failure_surfaces :
  let dip := [("BTC/USDT", {| t_last := 29000; t_percentage := -8 |})] in
  let broke := sample_env (fun _ => Ok dip) (Raise InsufficientFunds)
                          (RequestFailure "ConnectionError") in
  let funded := sample_env (fun _ => Ok dip)
                           (Ok (sample_order (PyInt 1700036000000)))
                           (RequestFailure "ConnectionError") in
  fst (send_msg broke (Some "token") "42" (MsgInsufficientFunds (PyInt 30))
                (sample_world no_orders))
    = Raise (RequestException "ConnectionError")
  /\ fst (main 3 sample_cfg broke (sample_world no_orders))
     = Raise (RequestException "ConnectionError")
  /\ fst (main 3 sample_cfg funded (sample_world no_orders))
     = Raise (RequestException "ConnectionError")
  /\ w_db (snd (main 3 sample_cfg funded (sample_world no_orders)))
     = sample_orders (PyInt 1700036000000).
Proof. vm_compute. repeat split. Qed.

(** C9, amended: [send_msg] makes one request and drops the response:
    whatever status the channel answers with, an error status included,
    it returns nothing and its caller goes on.  An exception raised by the
    request itself is raised by [send_msg] to its caller; the loop body
    lets it through on both of its ways to [send_msg], the decorator does
    not catch it, and it ends the run of [main]. *)
Theorem send_msg_drops_response ex token chat msg w :
  let url := {| url_token := token; url_chat_id := chat;
                url_text := msg |} in
  (forall status,
     ex_requests_get ex (length (w_trace w)) url = Response status ->
     send_msg ex token chat msg w = (Ok tt, after w [EvRequestsGet url]))
  /\ (forall name,
        ex_requests_get ex (length (w_trace w)) url = RequestFailure name ->
        send_msg ex token chat msg w
          = (Raise (RequestException name), after w [EvRequestsGet url])
        /\ caught (RequestException name) = false)
  /\ (forall cfg orders symbol ticker d name,
        decide (clock_at ex w) cfg orders symbol ticker = Ok d ->
        triggers d = true ->
        ex_place_order ex (length (w_trace w)) symbol (t_last ticker)
                       (amount_usd cfg) (dry_run cfg)
          = Raise InsufficientFunds ->
        ex_requests_get ex (length (w_trace w) + 2)
                        (insufficient_funds_url cfg) = RequestFailure name ->
        fst (loop_body cfg ex orders (symbol, ticker) w)
          = Raise (RequestException name))
  /\ (forall cycles cfg name w',
        main_once cycles cfg ex w = (Raise (RequestException name), w') ->
        main cycles cfg ex w = (Raise (RequestException name), w')).
Proof.
  intros url. split; [|split; [|split]].
  - intros status H. rewrite send_msg_run. cbn zeta. fold url.
    rewrite H. reflexivity.
  - intros name H. rewrite send_msg_run. cbn zeta. fold url.
    rewrite H. split; reflexivity.
  - intros cfg orders symbol ticker d name Hd Ht Hp Hr.
    rewrite loop_body_run, Hd, Ht. cbn zeta. rewrite Hp, Hr. reflexivity.
  - intros cycles cfg name w' Hrun. unfold main.
    apply retry_internal_not_caught; [exact Hrun|reflexivity].
Qed.

(** Telegram answers 403: [send_msg] returns as if the message had been
    delivered. *)
Lemma send_msg_drops_response_witness :
  let ex := sample_env (fun _ => Ok []) (Raise InsufficientFunds)
                       (Response 403) in
  let msg := MsgInsufficientFunds (PyInt 30) in
  send_msg ex (Some "token") "42" msg (sample_world no_orders)
  = (Ok tt,
     after (sample_world no_orders)
       [EvRequestsGet {| url_token := Some "token"; url_chat_id := "42";
                         url_text := msg |}]).
Proof.
  exact (proj1 (send_msg_drops_response
    (sample_env (fun _ => Ok []) (Raise InsufficientFunds) (Response 403))
    (Some "token") "42" (MsgInsufficientFunds (PyInt 30))
    (sample_world no_orders)) 403 eq_refl).
Defined.

(** * More of the code *)

(** ** What a run can do *)

Lemma adds_only_ret {A} P (a : A) : adds_only P (ret a).
Proof. intros w. exists []. rewrite app_nil_r. split; [reflexivity|constructor]. Qed.

Lemma adds_only_raise {A} P e : adds_only P (@raise A e).
Proof. intros w. exists []. rewrite app_nil_r. split; [reflexivity|constructor]. Qed.

Lemma adds_only_lift {A} P (r : result A) : adds_only P (lift r).
Proof. intros w. exists []. rewrite app_nil_r. split; [reflexivity|constructor]. Qed.

Lemma adds_only_position P : adds_only P position.
Proof. intros w. exists []. rewrite app_nil_r. split; [reflexivity|constructor]. Qed.

Lemma adds_only_emit (P : event -> Prop) ev : P ev -> adds_only P (emit ev).
Proof.
  intros H w. exists [ev]. split; [reflexivity|]. constructor; [exact H|constructor].
Qed.

Lemma adds_only_bind {A B} P (m : M A) (k : A -> M B) :
  adds_only P m -> (forall x, adds_only P (k x)) -> adds_only P (bind m k).
Proof.
  intros Hm Hk w. unfold bind.
  destruct (Hm w) as (l1 & E1 & F1).
  destruct (m w) as [[x|e] w1]; cbn [snd] in E1.
  - destruct (Hk x w1) as (l2 & E2 & F2).
    exists (l1 ++ l2)%list. rewrite E2, E1, app_assoc.
    split; [reflexivity|]. apply Forall_app. split; assumption.
  - exists l1. cbn [snd]. split; assumption.
Qed.

Ltac adds_steps :=
  repeat first
    [ apply adds_only_ret | apply adds_only_raise | apply adds_only_lift
    | apply adds_only_position
    | apply adds_only_emit; cbn; auto; fail
    | apply adds_only_bind; [|intros ?] ].

Section MainEvents.

Variable cfg : Config.
Variable ex : env.

Lemma main_event_loop_body orders item :
  adds_only (main_event cfg ex) (loop_body cfg ex orders item).
Proof.
  destruct item as [symbol ticker]. intros w. rewrite loop_body_run.
  destruct (decide _ _ _ _ _) as [d|e];
    [|exists []; rewrite app_nil_r; split; [reflexivity|constructor]].
  destruct (triggers d);
    [|eexists; split; [reflexivity|repeat constructor]].
  cbn zeta.
  destruct (ex_place_order _ _ _ _ _ _) as [order|e].
  { eexists; split; [reflexivity|repeat constructor]. }
  destruct e; try (eexists; split; [reflexivity|repeat constructor]).
  destruct (ex_requests_get _ _ _);
    [|eexists; split; [reflexivity|repeat constructor]].
  destruct (pynum_mul_int _ _) as [seconds|e];
    [|eexists; split; [reflexivity|repeat constructor]].
  destruct (sleep_check _ seconds);
    [|eexists; split; [reflexivity|repeat constructor]].
  rewrite after_after. eexists; split; [reflexivity|repeat constructor].
Qed.

Lemma main_event_for_each_ticker items :
  forall orders,
    adds_only (main_event cfg ex) (for_each_ticker cfg ex items orders).
Proof.
  induction items as [|item rest IH]; intros orders; cbn [for_each_ticker].
  - apply adds_only_ret.
  - apply adds_only_bind; [apply main_event_loop_body|intros o; apply IH].
Qed.

Lemma main_event_polling_loop cycles :
  forall orders,
    adds_only (main_event cfg ex)
              (polling_loop cycles cfg ex (tracked_symbols cfg) orders).
Proof.
  induction cycles as [|cycles IH]; intros orders; cbn [polling_loop].
  - apply adds_only_ret.
  - unfold fetch_tickers, log, sleep.
    apply adds_only_bind; [adds_steps|intros items].
    apply adds_only_bind; [apply main_event_for_each_ticker|intros o].
    apply adds_only_bind; [adds_steps|intros _].
    apply adds_only_bind; [adds_steps|intros _]. apply IH.
Qed.

Lemma main_event_log_holdings items :
  adds_only (main_event cfg ex) (log_holdings items).
Proof.
  induction items as [|[key value] rest IH]; cbn [log_holdings].
  - apply adds_only_ret.
  - apply adds_only_bind; [unfold log; adds_steps|intros _; exact IH].
Qed.

Lemma main_event_startup :
  adds_only (main_event cfg ex) (startup cfg ex).
Proof.
  unfold startup.
  unfold log, get_unsupported_symbols, get_orders.
  apply adds_only_bind; [adds_steps|intros _].
  apply adds_only_bind;
    [destruct (ex_api_key ex), (ex_api_secret ex); adds_steps|intros _].
  apply adds_only_bind;
    [destruct (ex_api_key ex) eqn:K; adds_steps|intros _].
  apply adds_only_bind;
    [destruct (ex_api_secret ex) eqn:K; adds_steps|intros _].
  apply adds_only_bind; [adds_steps|intros unsupported].
  destruct unsupported as [|s l]; [|adds_steps].
  apply adds_only_bind.
  { destruct (reset_cache cfg) eqn:R; adds_steps. }
  intros orders. do 4 (apply adds_only_bind; [adds_steps|intros _]).
  apply adds_only_bind; [|intros _; apply adds_only_ret].
  destruct (map_to_list orders); [apply adds_only_ret|].
  apply adds_only_bind; [adds_steps|intros _; apply main_event_log_holdings].
Qed.

(** What [startup] returns when it returns. *)
Lemma startup_result w so w1 :
  startup cfg ex w = (Ok so, w1) ->
  fst so = tracked_symbols cfg
  /\ snd so = (if reset_cache cfg then ∅ else w_db w)
  /\ w_db w1 = w_db w.
Proof.
  unfold startup. run. rewrite emit_after.
  destruct (ex_api_key ex) as [key|], (ex_api_secret ex) as [secret|];
    run; rewrite ?emit_after, ?after_after;
    rewrite get_unsupported_symbols_run;
    (destruct (ex_get_unsupported_symbols _ _ _) as [[|s l]|e];
     [|run; rewrite ?emit_after; discriminate|discriminate]);
    destruct (reset_cache cfg); unfold get_orders; run;
    rewrite ?emit_after, ?after_after; cbn [w_db after];
    destruct (map_to_list _) as [|kv items]; run;
    rewrite ?emit_after, ?log_holdings_run, ?after_after;
    intros [= <- <-]; repeat split.
Qed.

Lemma main_event_main_once cycles :
  adds_only (main_event cfg ex) (main_once cycles cfg ex).
Proof.
  intros w. unfold main_once, bind.
  destruct (main_event_startup w) as (l1 & E1 & F1).
  destruct (startup cfg ex w) as [[so|e] w1] eqn:Hs; cbn [snd] in E1.
  - destruct (startup_result _ _ _ Hs) as (Hsyms & _ & _). rewrite Hsyms.
    destruct (main_event_polling_loop cycles (snd so) w1) as (l2 & E2 & F2).
    exists (l1 ++ l2)%list. rewrite E2, E1, app_assoc.
    split; [reflexivity|]. apply Forall_app. split; assumption.
  - exists l1. cbn [snd]. split; assumption.
Qed.

Lemma main_event_main cycles :
  adds_only (main_event cfg ex) (main cycles cfg ex).
Proof.
  unfold main. generalize 15. generalize 8%nat.
  intros tries. induction tries as [|tries IH]; intros delay.
  - apply adds_only_ret.
  - intros w. cbn [retry_internal].
    destruct (main_event_main_once cycles w) as (l1 & E1 & F1).
    destruct (main_once cycles cfg ex w) as [[a|e] w1]; cbn [snd] in E1.
    + exists l1. split; assumption.
    + destruct (caught e); [|exists l1; split; assumption].
      destruct tries as [|tries']; [exists l1; split; assumption|].
      assert (Hk : adds_only (main_event cfg ex)
        (let* _ := log WARNING (MsgRetrying e delay) in
         let* _ := sleep (PyInt delay) in
         retry_internal (main_once cycles cfg ex) (S tries') (delay * 2) 2)).
      { unfold log, sleep.
        apply adds_only_bind; [adds_steps|intros _].
        apply adds_only_bind; [adds_steps|intros _]. apply IH. }
      destruct (Hk w1) as (l2 & E2 & F2).
      exists (l1 ++ l2)%list. rewrite E2, E1, app_assoc.
      split; [reflexivity|]. apply Forall_app. split; assumption.
Qed.

Lemma main_events cycles w :
  Forall (main_event cfg ex) (new_events w (snd (main cycles cfg ex w))).
Proof.
  destruct (main_event_main cycles w) as (evs & E & F).
  unfold new_events. rewrite E, drop_app_length. exact F.
Qed.

End MainEvents.

Lemma count_zero_Forall (p : event -> bool) evs :
  Forall (fun ev => p ev = false) evs -> count p evs = O.
Proof.
  induction 1 as [|ev rest Hev _ IH]; [reflexivity|].
  cbn [count]. rewrite Hev, IH. reflexivity.
Qed.

(** X1: with both credentials in the environment no run of [main] ever
    prompts, however many sessions the retries start. *)
Theorem no_prompt_with_credentials cfg ex cycles w key secret :
  ex_api_key ex = Some key ->
  ex_api_secret ex = Some secret ->
  count is_prompt (new_events w (snd (main cycles cfg ex w))) = O.
Proof.
  intros Hkey Hsecret. apply count_zero_Forall.
  eapply Forall_impl; [apply (main_events cfg ex)|].
  intros [] H; try reflexivity.
  cbn in H. rewrite Hkey, Hsecret in H. destruct H; discriminate.
Qed.

(** Two cycles with a dip in each and orders that succeed: no prompt. *)
Lemma no_prompt_with_credentials_witness :
  let dip := [("BTC/USDT", {| t_last := 29000; t_percentage := -8 |})] in
  let ex := sample_env (fun _ => Ok dip)
                       (Ok (sample_order (PyInt 1700036000000)))
                       (Response 200) in
  count is_prompt
        (new_events (sample_world no_orders)
                    (snd (main 2 sample_cfg ex (sample_world no_orders))))
  = O.
Proof.
  exact (no_prompt_with_credentials sample_cfg
    (sample_env
       (fun _ => Ok [("BTC/USDT", {| t_last := 29000; t_percentage := -8 |})])
       (Ok (sample_order (PyInt 1700036000000))) (Response 200))
    2 (sample_world no_orders) "key" "secret" eq_refl eq_refl).
Defined.

(** X2: whatever the exchange and the channel answer, a run of [main]
    asks the exchange about the tracked symbols and no others (at the
    symbol check and at every fetch), and places every order for the
    configured amount in the configured mode: with [dry_run] set no order
    leaves without it. *)
Theorem exchange_calls_use_configuration cfg ex cycles w :
  Forall (fun ev =>
            match ev with
            | EvGetUnsupportedSymbols syms => syms = tracked_symbols cfg
            | EvFetchTickers syms => syms = tracked_symbols cfg
            | EvPlaceOrder _ _ amount dry =>
                amount = amount_usd cfg /\ dry = dry_run cfg
            | _ => True
            end)
         (new_events w (snd (main cycles cfg ex w))).
Proof.
  eapply Forall_impl; [apply (main_events cfg ex)|].
  intros [] H; try exact I; exact H.
Qed.

(** X3: every request a run of [main] makes to Telegram is for the bot
    token and the chat of the configuration. *)
Theorem notifications_use_configured_chat cfg ex cycles w :
  Forall (fun ev =>
            match ev with
            | EvRequestsGet url =>
                url_token url = bot_token cfg
                /\ url_chat_id url = chat_id cfg
            | _ => True
            end)
         (new_events w (snd (main cycles cfg ex w))).
Proof.
  eapply Forall_impl; [apply (main_events cfg ex)|].
  intros [] H; try exact I; exact H.
Qed.

(** X4: with [reset_cache] no run of [main] reads the store, in the first
    session or in one a retry starts. *)
Theorem reset_cache_never_reads_store cfg ex cycles w :
  reset_cache cfg = true ->
  count is_get_orders (new_events w (snd (main cycles cfg ex w))) = O.
Proof.
  intros Hreset. apply count_zero_Forall.
  eapply Forall_impl; [apply (main_events cfg ex)|].
  intros [] H; try reflexivity.
  cbn in H. congruence.
Qed.

(** A first fetch that fails and a retry, with [reset_cache]: the store
    is not read. *)
Lemma reset_cache_never_reads_store_witness :
  let cfg :=
    {| symbols := ["btc"]; amount_usd := 50; freq := 10; min_drop := 7;
       min_additional_drop := 2; quote_currency := "USDT";
       dry_run := false; reset_cache := true; tickers := [];
       retry_after := PyInt 30; bot_token := None; chat_id := "42" |} in
  let ex := sample_env (fun n => if (n <? 10)%nat then Raise NetworkError
                                 else Ok [])
                       (Raise InsufficientFunds) (Response 200) in
  count is_get_orders
        (new_events (sample_world no_orders)
                    (snd (main 1 cfg ex (sample_world no_orders))))
  = O.
Proof.
  exact (reset_cache_never_reads_store
    {| symbols := ["btc"]; amount_usd := 50; freq := 10; min_drop := 7;
       min_additional_drop := 2; quote_currency := "USDT";
       dry_run := false; reset_cache := true; tickers := [];
       retry_after := PyInt 30; bot_token := None; chat_id := "42" |}
    (sample_env (fun n => if (n <? 10)%nat then Raise NetworkError
                          else Ok [])
                (Raise InsufficientFunds) (Response 200))
    1 (sample_world no_orders) eq_refl).
Defined.

(** ** Startup *)

(** X5: when the exchange does not support one of the tracked symbols,
    [main] logs the error naming them and raises [typer.Exit(-1)]; the
    decorator does not retry it; nothing else has happened: no order
    loaded, no ticker fetched, the store as it was. *)
Theorem unsupported_symbols_exit cfg ex cycles w s l :
  ex_get_unsupported_symbols ex
    (length (w_trace w) + S (length (credential_events ex)))
    (tracked_symbols cfg) = Ok (s :: l) ->
  main cycles cfg ex w =
    (Raise (Exit (-1)),
     after w (EvLog INFO (MsgStartSession (dry_run cfg))
              :: credential_events ex
              ++ [EvGetUnsupportedSymbols (tracked_symbols cfg);
                  EvLog ERROR (MsgUnsupported (s :: l))])).
Proof.
  intros Hbad. unfold main. apply retry_internal_not_caught; [|reflexivity].
  unfold main_once. unfold bind at 1.
  assert (Hs : startup cfg ex w =
    (Raise (Exit (-1)),
     after w (EvLog INFO (MsgStartSession (dry_run cfg))
              :: credential_events ex
              ++ [EvGetUnsupportedSymbols (tracked_symbols cfg);
                  EvLog ERROR (MsgUnsupported (s :: l))]))).
  { revert Hbad. unfold startup, credential_events. run. rewrite emit_after.
    destruct (ex_api_key ex) as [key|], (ex_api_secret ex) as [secret|];
      run; rewrite ?emit_after, ?after_after;
      rewrite get_unsupported_symbols_run, length_after;
      cbn [length app Nat.add]; intros ->;
      run; rewrite ?emit_after, ?after_after; reflexivity. }
  rewrite Hs. reflexivity.
Qed.

(** The exchange does not list DOGE/USDT. *)
Lemma unsupported_symbols_exit_witness :
  let ex :=
    {| ex_clock := fun _ => 0;
       ex_utcoffset := fun _ => 0;
       ex_api_key := Some "key";
       ex_api_secret := None;
       ex_get_unsupported_symbols := fun _ syms => Ok syms;
       ex_fetch_tickers := fun _ _ => Ok [];
       ex_place_order := fun _ _ _ _ _ => Raise InsufficientFunds;
       ex_requests_get := fun _ _ => Response 200 |} in
  main 3 sample_cfg ex (sample_world no_orders) =
    (Raise (Exit (-1)),
     after (sample_world no_orders)
       [EvLog INFO (MsgStartSession false);
        EvLog WARNING MsgCredentialsHint;
        EvPrompt "Enter your Binance API secret";
        EvGetUnsupportedSymbols ["BTC/USDT"];
        EvLog ERROR (MsgUnsupported ["BTC/USDT"])]).
Proof.
  exact (unsupported_symbols_exit sample_cfg
    {| ex_clock := fun _ => 0;
       ex_utcoffset := fun _ => 0;
       ex_api_key := Some "key";
       ex_api_secret := None;
       ex_get_unsupported_symbols := fun _ syms => Ok syms;
       ex_fetch_tickers := fun _ _ => Ok [];
       ex_place_order := fun _ _ _ _ _ => Raise InsufficientFunds;
       ex_requests_get := fun _ _ => Response 200 |}
    3 (sample_world no_orders) "BTC/USDT" [] eq_refl).
Defined.

Lemma str_contains_app c a b :
  str_contains c (a ++ b) = str_contains c a || str_contains c b.
Proof.
  induction a as [|c' a IH]; simpl; [reflexivity|].
  rewrite IH. apply orb_assoc.
Qed.

Lemma upper_ascii_slash c :
  Ascii.eqb "/" (upper_ascii c) = Ascii.eqb "/" c.
Proof. destruct c as [[] [] [] [] [] [] [] []]; reflexivity. Qed.

Lemma upper_keeps_slash s :
  str_contains "/" (upper s) = str_contains "/" s.
Proof.
  induction s as [|c s IH]; cbn [upper str_contains]; [reflexivity|].
  rewrite upper_ascii_slash, IH. reflexivity.
Qed.

(** X6: the symbols [main] tracks are the symbols asked for, or the
    tickers of the configuration when none is asked for, one for one and
    in order: a symbol with a ['/'] is put in upper case and kept, one
    without gets ['/'] and the quote currency appended (the quote currency
    as it is given, not in upper case).  So every tracked symbol has a
    ['/']. *)
Theorem tracked_symbols_shape cfg :
  let asked := match symbols cfg with [] => tickers cfg | l => l end in
  tracked_symbols cfg =
    map (fun s => if str_contains "/" s then upper s
                  else upper s ++ "/" ++ quote_currency cfg) asked
  /\ length (tracked_symbols cfg) = length asked
  /\ Forall (fun s => str_contains "/" s = true) (tracked_symbols cfg).
Proof.
  intros asked. unfold tracked_symbols. fold asked.
  split; [|split].
  - rewrite map_map. apply map_ext. intros s.
    rewrite upper_keeps_slash. reflexivity.
  - rewrite !length_map. reflexivity.
  - rewrite map_map. apply Forall_map. apply Forall_forall. intros s _.
    cbn beta. destruct (str_contains "/" (upper s)) eqn:H; [exact H|].
    rewrite str_contains_app. cbn. apply orb_true_r.
Qed.

(** ** More on one round *)

(** X7: a round asks the exchange for one order at most; when it asks,
    that is the first thing it does, and the order is for the symbol of
    the round at the last price of its ticker, for the configured amount
    and mode. *)
Theorem one_order_per_round cfg ex orders symbol ticker w :
  let evs := new_events w (snd (loop_body cfg ex orders (symbol, ticker) w)) in
  let placed := EvPlaceOrder symbol (t_last ticker) (amount_usd cfg)
                             (dry_run cfg) in
  existsb is_place_order evs = false
  \/ exists rest,
       evs = placed :: rest /\ existsb is_place_order rest = false.
Proof.
  cbn zeta. rewrite loop_body_run.
  destruct (decide _ _ _ _ _) as [d|e];
    [|left; cbn [snd]; rewrite new_events_same; reflexivity].
  destruct (triggers d);
    [|left; cbn [snd]; rewrite new_events_after; reflexivity].
  cbn zeta. right.
  destruct (ex_place_order _ _ _ _ _ _) as [order|e].
  { cbn [snd]. unfold new_events. cbn [w_trace]. rewrite drop_app_length.
    eexists. split; reflexivity. }
  destruct e; cbn [snd];
    try (rewrite new_events_after; eexists; split; reflexivity).
  destruct (ex_requests_get _ _ _);
    [|cbn [snd]; rewrite new_events_after; eexists; split; reflexivity].
  destruct (pynum_mul_int _ _) as [seconds|e];
    [|cbn [snd]; rewrite new_events_after; eexists; split; reflexivity].
  destruct (sleep_check _ seconds); cbn [snd];
    rewrite ?after_after, new_events_after; eexists; split; reflexivity.
Qed.

Lemma decide_buy_again te cfg orders symbol ticker d :
  decide te cfg orders symbol ticker = Ok d ->
  buy_again d = true ->
  exists record,
    orders !! symbol = Some record
    /\ discount_pct d
       = Some ((t_last ticker / o_price record - 1) * 100)%float.
Proof.
  unfold decide.
  destruct (if py_in symbol orders then _ else _) as [[|]|e]; cbn [rbind];
    [|intros [= <-]; discriminate|discriminate].
  destruct (orders !! symbol) as [record|]; [|discriminate].
  unfold float_truediv.
  destruct (o_price record =? 0)%float; cbn [rbind]; [discriminate|].
  intros [= <-] _. exists record. split; reflexivity.
Qed.

(** X8: after an order that succeeds the round saves the mapping, logs
    the buy and sends to Telegram the very message it logged.  The message
    of a buy-again names the symbol, the price and the discount
    [(last / price - 1) * 100] on the price of the record the mapping held;
    the message of a first buy names the 24h percentage of the ticker. *)
Theorem buy_notification cfg ex orders symbol ticker w d order :
  decide (clock_at ex w) cfg orders symbol ticker = Ok d ->
  triggers d = true ->
  ex_place_order ex (length (w_trace w)) symbol (t_last ticker)
                 (amount_usd cfg) (dry_run cfg) = Ok order ->
  exists msg,
    new_events w (snd (loop_body cfg ex orders (symbol, ticker) w)) =
      [EvPlaceOrder symbol (t_last ticker) (amount_usd cfg) (dry_run cfg);
       EvSave (<[symbol := order]> orders);
       EvLog INFO msg;
       EvRequestsGet {| url_token := bot_token cfg;
                        url_chat_id := chat_id cfg;
                        url_text := msg |}]
    /\ (buy_again d = true ->
        exists record,
          orders !! symbol = Some record
          /\ msg = MsgBuyAgain symbol (t_last ticker)
                     ((t_last ticker / o_price record - 1) * 100)%float)
    /\ (buy_again d = false ->
        msg = MsgBuyFirstTime symbol (t_last ticker) (t_percentage ticker)).
Proof.
  intros Hd Ht Hp. rewrite loop_body_run, Hd, Ht. cbn zeta. rewrite Hp.
  cbn [snd]. unfold new_events. cbn [w_trace]. rewrite drop_app_length.
  eexists. split; [reflexivity|]. split.
  - intros Hagain.
    destruct (decide_buy_again _ _ _ _ _ _ Hd Hagain) as (record & Hin & Hpct).
    exists record. rewrite Hagain, Hpct. split; [exact Hin|reflexivity].
  - intros ->. reflexivity.
Qed.

(** Bought ten hours ago at 30000, now at 29000: the message sent is the
    one of a buy-again, with the discount on 30000. *)
Lemma buy_notification_witness :
  let orders := sample_orders (PyInt 1700000000000) in
  let bought := sample_order (PyInt 1700036000000) in
  let ex := sample_env (fun _ => Ok []) (Ok bought) (Response 200) in
  let item := ("BTC/USDT", {| t_last := 29000; t_percentage := 5 |}) in
  let msg := MsgBuyAgain "BTC/USDT" 29000 ((29000 / 30000 - 1) * 100)%float in
  new_events (sample_world orders)
             (snd (loop_body sample_cfg ex orders item (sample_world orders)))
  = [EvPlaceOrder "BTC/USDT" 29000 50 false;
     EvSave (<["BTC/USDT" := bought]> orders);
     EvLog INFO msg;
     EvRequestsGet {| url_token := Some "token"; url_chat_id := "42";
                      url_text := msg |}].
Proof.
  cbn zeta.
  destruct (buy_notification sample_cfg
    (sample_env (fun _ => Ok []) (Ok (sample_order (PyInt 1700036000000)))
                (Response 200))
    (sample_orders (PyInt 1700000000000)) "BTC/USDT"
    {| t_last := 29000; t_percentage := 5 |}
    (sample_world (sample_orders (PyInt 1700000000000)))
    {| buy_first_time := false; buy_again := true;
       discount_pct := Some ((29000 / 30000 - 1) * 100)%float |}
    (sample_order (PyInt 1700036000000))
    ltac:(vm_compute; reflexivity) ltac:(vm_compute; reflexivity)
    ltac:(vm_compute; reflexivity)) as (msg & Hevs & Hagain & _).
  rewrite Hevs.
  destruct (Hagain eq_refl) as (record & Hin & ->).
  vm_compute in Hin. injection Hin as <-. reflexivity.
Defined.

(** X9: a record that cannot be decided on ends the round before it does
    anything, and with it the iteration over the snapshot: when the
    conversion of its timestamp raises (a float in milliseconds is a year
    out of range), or when it is within the window and its price is 0 (the
    division raises).  Nothing is logged, no ticker after it is looked
    at. *)
Theorem bad_record_ends_round cfg ex orders symbol order ticker rest w e :
  orders !! symbol = Some order ->
  bought_less_than_24h_ago (clock_at ex w) symbol orders = Raise e
  \/ (bought_less_than_24h_ago (clock_at ex w) symbol orders = Ok true
      /\ (o_price order =? 0)%float = true
      /\ e = ZeroDivisionError) ->
  loop_body cfg ex orders (symbol, ticker) w = (Raise e, w)
  /\ for_each_ticker cfg ex ((symbol, ticker) :: rest) orders w
     = (Raise e, w).
Proof.
  intros Hin Hbad.
  assert (Hd : decide (clock_at ex w) cfg orders symbol ticker = Raise e).
  { unfold decide. rewrite (py_in_Some _ _ _ Hin).
    destruct Hbad as [->|(-> & Hzero & ->)]; [reflexivity|].
    cbn [rbind]. rewrite Hin. unfold float_truediv. rewrite Hzero.
    reflexivity. }
  assert (Hrun : loop_body cfg ex orders (symbol, ticker) w = (Raise e, w)).
  { rewrite loop_body_run, Hd. reflexivity. }
  split; [exact Hrun|].
  cbn [for_each_ticker]. unfold bind at 1. rewrite Hrun. reflexivity.
Qed.

(** A record stamped with a float of milliseconds: [ValueError], and the
    ticker of ETH/USDT after it is not looked at. *)
Lemma bad_record_ends_round_witness :
  let orders := sample_orders (PyFloat 1700000000000) in
  let ex := sample_env (fun _ => Ok []) (Raise InsufficientFunds)
                       (Response 200) in
  for_each_ticker sample_cfg ex
    [("BTC/USDT", {| t_last := 29000; t_percentage := -8 |});
     ("ETH/USDT", {| t_last := 1500; t_percentage := -9 |})]
    orders (sample_world orders)
  = (Raise ValueError, sample_world orders).
Proof.
  exact (proj2 (bad_record_ends_round sample_cfg
    (sample_env (fun _ => Ok []) (Raise InsufficientFunds) (Response 200))
    (sample_orders (PyFloat 1700000000000)) "BTC/USDT"
    (sample_order (PyFloat 1700000000000))
    {| t_last := 29000; t_percentage := -8 |}
    [("ETH/USDT", {| t_last := 1500; t_percentage := -9 |})]
    (sample_world (sample_orders (PyFloat 1700000000000))) ValueError
    ltac:(vm_compute; reflexivity)
    ltac:(left; vm_compute; reflexivity))).
Defined.

(** X10: the decision about a symbol looks at the record of that symbol
    alone: a buy of another symbol earlier in the cycle leaves it as it
    was. *)
Theorem other_symbols_do_not_matter te cfg orders other order symbol ticker :
  other <> symbol ->
  bought_less_than_24h_ago te symbol (<[other := order]> orders)
  = bought_less_than_24h_ago te symbol orders
  /\ decide te cfg (<[other := order]> orders) symbol ticker
     = decide te cfg orders symbol ticker.
Proof.
  intros Hne.
  assert (Hl : <[other := order]> orders !! symbol = orders !! symbol)
    by (apply lookup_insert_ne; exact Hne).
  assert (Hb : bought_less_than_24h_ago te symbol (<[other := order]> orders)
               = bought_less_than_24h_ago te symbol orders).
  { unfold bought_less_than_24h_ago. rewrite Hl. reflexivity. }
  split; [exact Hb|].
  unfold decide, py_in. rewrite Hb, Hl. reflexivity.
Qed.

(** A buy of ETH/USDT does not change what is decided for BTC/USDT. *)
Lemma other_symbols_do_not_matter_witness :
  let te := sample_time 1700036000 in
  let orders := sample_orders (PyInt 1700000000000) in
  let ticker := {| t_last := 29000; t_percentage := 5 |} in
  decide te sample_cfg
         (<["ETH/USDT" := sample_order (PyInt 1700036000000)]> orders)
         "BTC/USDT" ticker
  = decide te sample_cfg orders "BTC/USDT" ticker.
Proof.
  exact (proj2 (other_symbols_do_not_matter (sample_time 1700036000)
    sample_cfg (sample_orders (PyInt 1700000000000)) "ETH/USDT"
    (sample_order (PyInt 1700036000000)) "BTC/USDT"
    {| t_last := 29000; t_percentage := 5 |}
    ltac:(discriminate))).
Defined.

(** ** The mapping and the store *)

Lemma in_step_trans a w b w1 c w2 :
  in_step a w b w1 -> in_step b w1 c w2 -> in_step a w c w2.
Proof.
  unfold in_step. intros [[-> H1]|H1] [[-> H2]|H2];
    first [left; split; congruence | right; congruence].
Qed.

Lemma in_step_loop_body cfg ex orders item w orders' w' :
  loop_body cfg ex orders item w = (Ok orders', w') ->
  in_step orders w orders' w'.
Proof.
  destruct item as [symbol ticker].
  destruct (loop_body_cases cfg ex orders symbol ticker w)
    as [(d & order & Hd & Ht & Hp)|(r & evs & -> & _ & Ho)].
  - rewrite loop_body_run, Hd, Ht. cbn zeta. rewrite Hp.
    destruct (ex_requests_get _ _ _); [|discriminate].
    intros [= <- <-]. right. reflexivity.
  - intros [= -> <-]. left. split; [apply Ho|]; reflexivity.
Qed.

Lemma in_step_for_each_ticker cfg ex items :
  forall orders w orders' w',
    for_each_ticker cfg ex items orders w = (Ok orders', w') ->
    in_step orders w orders' w'.
Proof.
  induction items as [|item rest IH]; intros orders w orders' w';
    cbn [for_each_ticker].
  - intros [= <- <-]. left. split; reflexivity.
  - unfold bind at 1.
    destruct (loop_body cfg ex orders item w) as [[o1|e] w1] eqn:H1;
      [|discriminate].
    intros H2. eapply in_step_trans.
    + apply (in_step_loop_body _ _ _ _ _ _ _ H1).
    + apply (IH _ _ _ _ H2).
Qed.

Lemma in_step_polling_loop cfg ex syms cycles :
  forall orders w orders' w',
    polling_loop cycles cfg ex syms orders w = (Ok orders', w') ->
    in_step orders w orders' w'.
Proof.
  induction cycles as [|cycles IH]; intros orders w orders' w';
    cbn [polling_loop].
  - intros [= <- <-]. left. split; reflexivity.
  - unfold bind at 1. rewrite fetch_tickers_run.
    destruct (ex_fetch_tickers _ _ _) as [items|e]; [|discriminate].
    unfold bind at 1.
    destruct (for_each_ticker cfg ex items orders _) as [[o1|e] w1] eqn:H1;
      [|discriminate].
    unfold bind at 1. unfold log. rewrite emit_after.
    unfold bind at 1. rewrite sleep_run.
    destruct (sleep_check _ _); [|discriminate].
    intros H2. eapply in_step_trans.
    + apply (in_step_for_each_ticker _ _ _ _ _ _ _ H1).
    + apply (IH _ _ _ _ H2).
Qed.

(** X11: whenever the store is written it holds the mapping [main] works
    on.  Over an iteration on a snapshot that ends normally, either
    nothing was saved and mapping and store are as they were, or the store
    holds the mapping the iteration returns.  Without [reset_cache] the
    mapping is loaded from the store, so that as long as a session of
    [main] runs its mapping is what the store holds: what a restart loads
    is what the session knew. *)
Theorem store_follows_mapping cfg ex :
  (forall items orders w orders' w',
      for_each_ticker cfg ex items orders w = (Ok orders', w') ->
      (orders' = orders /\ w_db w' = w_db w) \/ w_db w' = orders')
  /\ (forall cycles w orders' w',
        reset_cache cfg = false ->
        main_once cycles cfg ex w = (Ok orders', w') ->
        w_db w' = orders').
Proof.
  split.
  - intros items orders w orders' w'. apply in_step_for_each_ticker.
  - intros cycles w orders' w' Hreset. unfold main_once, bind.
    destruct (startup cfg ex w) as [[so|e] w1] eqn:Hs; [|discriminate].
    destruct (startup_result _ _ _ _ _ Hs) as (_ & Horders & Hdb).
    rewrite Hreset in Horders. intros Hloop.
    destruct (in_step_polling_loop _ _ _ _ _ _ _ _ Hloop) as [[-> H]|H];
      congruence.
Qed.

(** X12: [reset_cache] does not clear the store: startup hands [main] an
    empty mapping and leaves the store as it was.  The records of the
    store are lost at the first order that succeeds: whatever the store
    held, it then holds the record of that order and nothing else. *)
Theorem reset_cache_forgets_at_first_buy cfg ex w so w1 :
  reset_cache cfg = true ->
  startup cfg ex w = (Ok so, w1) ->
  snd so = ∅
  /\ w_db w1 = w_db w
  /\ forall symbol ticker w2 d order,
       decide (clock_at ex w2) cfg (snd so) symbol ticker = Ok d ->
       triggers d = true ->
       ex_place_order ex (length (w_trace w2)) symbol (t_last ticker)
                      (amount_usd cfg) (dry_run cfg) = Ok order ->
       w_db (snd (loop_body cfg ex (snd so) (symbol, ticker) w2))
       = {[symbol := order]}.
Proof.
  intros Hreset Hs.
  destruct (startup_result _ _ _ _ _ Hs) as (_ & Horders & Hdb).
  rewrite Hreset in Horders.
  split; [exact Horders|]. split; [exact Hdb|].
  intros symbol ticker w2 d order Hd Ht Hp.
  rewrite loop_body_run, Hd, Ht. cbn zeta. rewrite Hp. cbn [snd w_db].
  rewrite Horders. apply insert_empty.
Qed.

(** ** The cycle *)

Lemma sleep_timeout_raises seconds e :
  sleep_timeout seconds = Raise e -> caught e = false.
Proof.
  unfold sleep_timeout. destruct seconds as [z|f]; cbn zeta.
  - destruct (negb _); [intros [= <-]; reflexivity|].
    destruct (_ <? 0); [intros [= <-]; reflexivity|discriminate].
  - destruct (is_nan f); [intros [= <-]; reflexivity|].
    destruct (is_infinity _); [intros [= <-]; reflexivity|].
    destruct (negb _); [intros [= <-]; reflexivity|].
    destruct (_ || _); [intros [= <-]; reflexivity|discriminate].
Qed.

Lemma sleep_timeout_refused now seconds e :
  sleep_timeout seconds = Raise e -> sleep_check now seconds = Raise e.
Proof. intros H. unfold sleep_check. rewrite H. reflexivity. Qed.

Lemma polling_loop_refused_sleep cfg ex e :
  sleep_timeout (PyFloat (freq cfg * 60)%float) = Raise e ->
  forall cycles syms orders w,
    polling_loop (S cycles) cfg ex syms orders w =
      match ex_fetch_tickers ex (length (w_trace w)) syms with
      | Raise e0 => (Raise e0, after w [EvFetchTickers syms])
      | Ok items =>
          match for_each_ticker cfg ex items orders
                  (after w [EvFetchTickers syms]) with
          | (Raise e0, w1) => (Raise e0, w1)
          | (Ok _, w1) =>
              (Raise e, after w1 [EvLog INFO (MsgCheckingAgain (freq cfg))])
          end
      end.
Proof.
  intros Hsleep cycles syms orders w. cbn [polling_loop].
  unfold bind at 1. rewrite fetch_tickers_run.
  destruct (ex_fetch_tickers _ _ _) as [items|e0]; [|reflexivity].
  unfold bind at 1.
  destruct (for_each_ticker cfg ex items orders _) as [[o1|e0] w1];
    [|reflexivity].
  unfold bind at 1. unfold log. rewrite emit_after.
  unfold bind at 1.
  rewrite sleep_run, (sleep_timeout_refused _ _ _ Hsleep). reflexivity.
Qed.

Lemma retry_internal_ext {A} (f g : M A) backoff :
  (forall w, f w = g w) ->
  forall tries delay w,
    retry_internal f tries delay backoff w
    = retry_internal g tries delay backoff w.
Proof.
  intros Hfg tries. induction tries as [|tries IH]; intros delay w.
  - reflexivity.
  - cbn [retry_internal]. rewrite Hfg.
    destruct (g w) as [[a|e] w']; [reflexivity|].
    destruct (caught e); [|reflexivity].
    destruct tries as [|tries']; [reflexivity|].
    unfold bind at 1 3. destruct (log _ _ w') as [[u|e1] w1]; [|reflexivity].
    unfold bind. destruct (sleep _ w1) as [[u'|e2] w2]; [|reflexivity].
    apply IH.
Qed.

Lemma retry_internal_always_raises {A} (f : M A) backoff :
  (forall w, exists e w', f w = (Raise e, w')) ->
  forall tries delay w,
    exists e w', retry_internal f (S tries) delay backoff w = (Raise e, w').
Proof.
  intros Hf tries. induction tries as [|tries IH]; intros delay w.
  - cbn [retry_internal]. destruct (Hf w) as (e & w' & ->).
    destruct (caught e); eauto.
  - remember (S tries) as n eqn:Hn. cbn [retry_internal].
    destruct (Hf w) as (e & w' & ->).
    destruct (caught e); [|eauto]. subst n.
    unfold bind at 1. unfold log. rewrite emit_after.
    unfold bind at 1. rewrite sleep_run.
    destruct (sleep_check _ (PyInt delay)); [|eauto]. apply IH.
Qed.

(** X14: a frequency whose length [time.sleep] refuses (a negative one, a
    NaN, one beyond the C time type) is not refused at startup, which does
    not look at the frequency.  When startup, the fetch and the iteration
    over the snapshot go well, the first cycle is run in full, orders
    included, and the sleep at its end raises; that exception is not one
    the decorator retries on, so it ends [main] there, with nothing else
    done.  Whatever happens, [main] raises, and what it does is what it
    does when asked for one cycle. *)
Theorem refused_frequency_ends_first_cycle cfg ex e :
  sleep_timeout (PyFloat (freq cfg * 60)%float) = Raise e ->
  (forall f w, startup (with_freq f cfg) ex w = startup cfg ex w)
  /\ (forall cycles w so w0 items orders' w1,
        startup cfg ex w = (Ok so, w0) ->
        ex_fetch_tickers ex (length (w_trace w0)) (fst so) = Ok items ->
        for_each_ticker cfg ex items (snd so)
                        (after w0 [EvFetchTickers (fst so)])
          = (Ok orders', w1) ->
        main (S cycles) cfg ex w =
          (Raise e, after w1 [EvLog INFO (MsgCheckingAgain (freq cfg))]))
  /\ caught e = false
  /\ (forall cycles w, main (S cycles) cfg ex w = main 1 cfg ex w)
  /\ (forall cycles w,
        exists e' w', main (S cycles) cfg ex w = (Raise e', w')).
Proof.
  intros Hsleep.
  pose proof (sleep_timeout_raises _ _ Hsleep) as Hcaught.
  split; [reflexivity|]. split; [|split; [exact Hcaught|split]].
  - intros cycles w so w0 items orders' w1 Hstart Hfetch Hiter.
    unfold main. apply retry_internal_not_caught; [|exact Hcaught].
    unfold main_once. unfold bind at 1. rewrite Hstart.
    rewrite (polling_loop_refused_sleep _ _ _ Hsleep), Hfetch, Hiter.
    reflexivity.
  - intros cycles w. unfold main. apply retry_internal_ext. clear w.
    intros w. unfold main_once, bind.
    destruct (startup cfg ex w) as [[so|e0] w1]; [|reflexivity].
    rewrite !(polling_loop_refused_sleep _ _ _ Hsleep). reflexivity.
  - intros cycles w. unfold main.
    apply retry_internal_always_raises. clear w. intros w.
    unfold main_once, bind.
    destruct (startup cfg ex w) as [[so|e0] w1]; [|eauto].
    rewrite (polling_loop_refused_sleep _ _ _ Hsleep).
    destruct (ex_fetch_tickers _ _ _) as [items|e0]; [|eauto].
    destruct (for_each_ticker _ _ _ _ _) as [[o1|e0] w2]; eauto.
Qed.

(** A frequency of -1 minute and a dip: the order is placed, saved and
    notified, the line about the next check is logged, then [ValueError]
    ends the program. *)
Lemma refused_frequency_ends_first_cycle_witness :
  let cfg := with_freq (-1) sample_cfg in
  let dip := [("BTC/USDT", {| t_last := 29000; t_percentage := -8 |})] in
  let ex := sample_env (fun _ => Ok dip)
                       (Ok (sample_order (PyInt 1700036000000)))
                       (Response 200) in
  let w := sample_world no_orders in
  fst (main 5 cfg ex w) = Raise ValueError
  /\ new_events w (snd (main 5 cfg ex w)) =
       (startup_events cfg ex no_orders
        ++ [EvFetchTickers ["BTC/USDT"];
           EvPlaceOrder "BTC/USDT" 29000 50 false;
           EvSave (sample_orders (PyInt 1700036000000));
           EvLog INFO (MsgBuyFirstTime "BTC/USDT" 29000 (-8));
           EvRequestsGet {| url_token := Some "token"; url_chat_id := "42";
                            url_text := MsgBuyFirstTime "BTC/USDT" 29000 (-8) |};
           EvLog INFO (MsgCheckingAgain (-1))])%list
  /\ w_db (snd (main 5 cfg ex w)) = sample_orders (PyInt 1700036000000).
Proof.
  intros cfg dip ex w.
  erewrite (proj1 (proj2 (refused_frequency_ends_first_cycle cfg ex ValueError
              ltac:(vm_compute; reflexivity))) 4%nat w); cycle 1.
  - vm_compute. reflexivity.
  - vm_compute. reflexivity.
  - vm_compute. reflexivity.
  - vm_compute. repeat split.
Defined.

(** A store that holds a purchase of BTC/USDT, [reset_cache], and a first
    order, for ETH/USDT, that succeeds: the store is left untouched by
    startup and holds the record of ETH/USDT alone after the buy. *)
Lemma reset_cache_forgets_at_first_buy_witness :
  let cfg :=
    {| symbols := ["btc"; "eth"]; amount_usd := 50; freq := 10;
       min_drop := 7; min_additional_drop := 2; quote_currency := "USDT";
       dry_run := false; reset_cache := true; tickers := [];
       retry_after := PyInt 30; bot_token := None; chat_id := "42" |} in
  let bought := sample_order (PyInt 1700036000000) in
  let ex := sample_env (fun _ => Ok []) (Ok bought) (Response 200) in
  let w := sample_world (sample_orders (PyInt 1700000000000)) in
  let w1 := snd (startup cfg ex w) in
  w_db w1 = sample_orders (PyInt 1700000000000)
  /\ w_db (snd (loop_body cfg ex ∅
                  ("ETH/USDT", {| t_last := 1500; t_percentage := -9 |}) w1))
     = {["ETH/USDT" := bought]}.
Proof.
  cbn zeta.
  pose proof (reset_cache_forgets_at_first_buy
    {| symbols := ["btc"; "eth"]; amount_usd := 50; freq := 10;
       min_drop := 7; min_additional_drop := 2; quote_currency := "USDT";
       dry_run := false; reset_cache := true; tickers := [];
       retry_after := PyInt 30; bot_token := None; chat_id := "42" |}
    (sample_env (fun _ => Ok []) (Ok (sample_order (PyInt 1700036000000)))
                (Response 200))
    (sample_world (sample_orders (PyInt 1700000000000)))
    (["BTC/USDT"; "ETH/USDT"], ∅) _ eq_refl
    ltac:(vm_compute; reflexivity)) as (_ & Hdb & Hbuy).
  split; [exact Hdb|].
  refine (Hbuy "ETH/USDT" {| t_last := 1500; t_percentage := -9 |} _ _ _
               _ _ _); vm_compute; reflexivity.
Defined.

(** ** The day window over time *)

Lemma fromtimestamp_offset te te' timestamp :
  te_utcoffset te' = te_utcoffset te ->
  fromtimestamp te' timestamp = fromtimestamp te timestamp.
Proof.
  intros H. unfold fromtimestamp, localtime. rewrite H. reflexivity.
Qed.

(** X15: a record that is out of the day window stays out of it as long
    as the local clock does not go back: asked later on the same host, the
    function answers [False] again.  (It is the local wall clock that
    counts: an hour repeated at the end of summer time can bring a record
    back in.) *)
Theorem stale_stays_stale te te' symbol orders :
  te_utcoffset te' = te_utcoffset te ->
  datetime_now te <= datetime_now te' ->
  bought_less_than_24h_ago te symbol orders = Ok false ->
  bought_less_than_24h_ago te' symbol orders = Ok false.
Proof.
  intros Hoff Hlater. unfold bought_less_than_24h_ago.
  destruct (orders !! symbol) as [order|]; [|auto].
  destruct (normalise_timestamp (o_timestamp order)) as [timestamp|e];
    cbn [rbind]; [|auto].
  rewrite (fromtimestamp_offset _ _ _ Hoff).
  destruct (fromtimestamp te timestamp) as [bought_on|e]; cbn [rbind];
    [|auto].
  intros [= H]. f_equal.
  apply Z.leb_gt in H. apply Z.leb_gt.
  unfold timedelta_days in *.
  pose proof (Z.div_le_mono (datetime_now te - bought_on)
                (datetime_now te' - bought_on) us_per_day
                ltac:(reflexivity) ltac:(lia)).
  lia.
Qed.

(** Out of the window after three days, out of it after four. *)
Lemma stale_stays_stale_witness :
  bought_less_than_24h_ago (sample_time (1700000000 + 4 * 86400)) "BTC/USDT"
                           (sample_orders (PyInt 1700000000000)) = Ok false.
Proof.
  exact (stale_stays_stale (sample_time (1700000000 + 3 * 86400))
    (sample_time (1700000000 + 4 * 86400)) "BTC/USDT"
    (sample_orders (PyInt 1700000000000))
    eq_refl ltac:(vm_compute; discriminate) ltac:(vm_compute; reflexivity)).
Defined.

(** ** Prompts and retries *)

Lemma holdings_events_no_prompt items :
  count is_prompt (holdings_events items) = O.
Proof.
  induction items as [|kv rest IH]; [reflexivity|].
  cbn [holdings_events map count is_prompt]. exact IH.
Qed.

Lemma startup_events_prompts cfg ex db :
  count is_prompt (startup_events cfg ex db)
  = (missing (ex_api_key ex) + missing (ex_api_secret ex))%nat.
Proof.
  unfold startup_events.
  pose proof (holdings_events_no_prompt
                (map_to_list (if reset_cache cfg then ∅ else db))) as H.
  destruct (ex_api_key ex), (ex_api_secret ex), (reset_cache cfg);
    destruct (map_to_list _) as [|kv items];
    cbn [app count is_prompt] in *; rewrite ?H; reflexivity.
Qed.

(** X16: a credential missing from the environment is prompted for in
    every session, those the retries start included: when the exchange
    cannot be reached, a run of [main] prompts 8 times for each missing
    credential before it gives up. *)
Theorem prompts_again_at_each_retry cfg ex cycles w :
  (forall n syms, ex_get_unsupported_symbols ex n syms = Ok []) ->
  (forall n syms, exists e,
      ex_fetch_tickers ex n syms = Raise e /\ caught e = true) ->
  count is_prompt (new_events w (snd (main (S cycles) cfg ex w)))
  = (8 * (missing (ex_api_key ex) + missing (ex_api_secret ex)))%nat.
Proof.
  intros Hsup Hfetch.
  set (attempt := (startup_events cfg ex (w_db w)
                   ++ [EvFetchTickers (tracked_symbols cfg)])%list).
  destruct (retry_internal_all_fail (main_once (S cycles) cfg ex)
              attempt (w_db w)) with (tries := 7%nat) (delay := 15) (w := w)
    as (errors & e & Hrun & He & Hlen).
  { intros w0 Hdb.
    destruct (Hfetch (length (w_trace w0)
                      + length (startup_events cfg ex (w_db w0)))%nat
                     (tracked_symbols cfg)) as (e & Hf & He).
    exists e. split; [exact He|].
    rewrite (main_once_fetch_fails cfg ex Hsup cycles w0 e Hf), Hdb.
    reflexivity. }
  { reflexivity. }
  { lia. }
  { vm_compute. reflexivity. }
  unfold main. rewrite Hrun. cbn [snd]. rewrite new_events_after.
  rewrite retry_events_count by reflexivity. rewrite Hlen.
  unfold attempt. rewrite count_app, startup_events_prompts.
  cbn [count is_prompt]. lia.
Qed.

(** No API secret in the environment and an exchange out of reach: eight
    prompts for the secret. *)
Lemma prompts_again_at_each_retry_witness :
  let ex :=
    {| ex_clock := fun _ => 0;
       ex_utcoffset := fun _ => 0;
       ex_api_key := Some "key";
       ex_api_secret := None;
       ex_get_unsupported_symbols := fun _ _ => Ok [];
       ex_fetch_tickers := fun _ _ => Raise RequestTimeout;
       ex_place_order := fun _ _ _ _ _ => Raise InsufficientFunds;
       ex_requests_get := fun _ _ => Response 200 |} in
  count is_prompt
        (new_events (sample_world no_orders)
                    (snd (main 1 sample_cfg ex (sample_world no_orders))))
  = 8%nat.
Proof.
  refine (prompts_again_at_each_retry sample_cfg
    {| ex_clock := fun _ => 0;
       ex_utcoffset := fun _ => 0;
       ex_api_key := Some "key";
       ex_api_secret := None;
       ex_get_unsupported_symbols := fun _ _ => Ok [];
       ex_fetch_tickers := fun _ _ => Raise RequestTimeout;
       ex_place_order := fun _ _ _ _ _ => Raise InsufficientFunds;
       ex_requests_get := fun _ _ => Response 200 |}
    O (sample_world no_orders) _ _).
  - intros n syms. reflexivity.
  - intros n syms. exists RequestTimeout. split; reflexivity.
Defined.

(** ** The mail *)

(** X17: whatever the mail server does, [send_email] sends the commands
    of its script in order and stops at the first call that raises, except
    that it always says [QUIT] once it is connected.  So the password goes
    out only after [STARTTLS] was accepted, the message only after the
    login was, and the call returns normally only when the whole script
    went through. *)
Theorem send_email_script peer sender_email receiver_email pwd msg :
  let run := send_email peer sender_email receiver_email pwd msg in
  let script := smtp_script sender_email receiver_email pwd msg in
  let sent := snd run in
  (forall error,
     peer O (SmtpConnect smtp_server port) = Failed error ->
     run = (Failed error, [SmtpConnect smtp_server port]))
  /\ (peer O (SmtpConnect smtp_server port) = Done tt ->
      exists n, (1 <= n <= 6)%nat /\ sent = (take n script ++ [SmtpQuit])%list)
  /\ (In (SmtpLogin sender_email pwd) sent ->
      peer 2%nat SmtpStartTls = Done tt)
  /\ (In (SmtpSendmail sender_email receiver_email msg) sent ->
      peer 4%nat (SmtpLogin sender_email pwd) = Done tt)
  /\ (fst run = Done tt -> sent = script).
Proof.
  cbn zeta. unfold send_email, smtp_script, smtp_call. cbn [length app].
  destruct (peer O _) as [[]|err0] eqn:H0.
  2:{ cbn [fst snd]. split; [intros error [= <-]; reflexivity|].
      split; [discriminate|].
      repeat split; try discriminate; intros [H|[]]; discriminate. }
  split; [discriminate|].
  cbn [smtp_block]. unfold smtp_call. cbn [length app].
  destruct (peer 1%nat _) as [[]|err1] eqn:H1;
  [destruct (peer 2%nat _) as [[]|err2] eqn:H2;
   [destruct (peer 3%nat _) as [[]|err3] eqn:H3;
    [destruct (peer 4%nat _) as [[]|err4] eqn:H4;
     [destruct (peer 5%nat _) as [[]|err5] eqn:H5|]|]|]|];
  cbn [length app smtp_block];
  destruct (peer _ SmtpQuit) as [[]|errq]; cbn [fst snd];
  (split;
   [intros _;
    first [ exists 6%nat; split; [lia|reflexivity]
          | exists 5%nat; split; [lia|reflexivity]
          | exists 4%nat; split; [lia|reflexivity]
          | exists 3%nat; split; [lia|reflexivity]
          | exists 2%nat; split; [lia|reflexivity]
          | exists 1%nat; split; [lia|reflexivity] ]
   |]);
  (split; [intros H; try reflexivity; cbn in H;
           repeat (destruct H as [H|H]; try discriminate); destruct H|]);
  (split; [intros H; try reflexivity; cbn in H;
           repeat (destruct H as [H|H]; try discriminate); destruct H|]);
  intros H; try reflexivity; discriminate.
Qed.

(** A server without [STARTTLS]: the commands sent are a part of the
    script and [QUIT]; by the theorem again, no password is among them. *)
Lemma send_email_script_witness :
  let peer : smtp_peer :=
    fun _ c => match c with
               | SmtpStartTls => Failed "SMTPNotSupportedError"
               | _ => Done tt
               end in
  exists n,
    (1 <= n <= 6)%nat
    /\ snd (send_email peer "bot@example.org" "me@example.org" "secret"
                       "Buying")
       = (take n (smtp_script "bot@example.org" "me@example.org" "secret"
                              "Buying")
          ++ [SmtpQuit])%list.
Proof.
  exact (proj1 (proj2 (send_email_script
    (fun _ c => match c with
                | SmtpStartTls => Failed "SMTPNotSupportedError"
                | _ => Done tt
                end)
    "bot@example.org" "me@example.org" "secret" "Buying")) eq_refl).
Defined.
